(** * Beacon opportunities views: a shallow embedding

    The request handlers of [purchasing/opportunities/views.py] (vendor
    signup, subscription management, browsing, detail, document upload and
    opportunity build/update) as state-and-exception passing functions over
    an explicit model of the relational store, the upload destinations and
    the one dictionary that [build_opportunity] mutates in place.

    Python exceptions are values of [exn]; a handler that raises yields
    [Raise e] together with the store as it was left at that point.  The
    collaborators that live outside the module (werkzeug's
    [secure_filename], [random_id], the S3 client, the notification sender,
    [Opportunity.is_published]) are gathered in the record [Collaborators]
    and stay abstract. *)

From Stdlib Require Import ZArith String Ascii List Bool Lia.
From stdpp Require Import base option gmap strings list pretty.

Local Open Scope Z_scope.
Local Open Scope string_scope.

(** ** Python values that travel through the handlers *)

(** werkzeug's [FileStorage]: the client's file name and the stream. *)
Record FileStorage := mkFile {
  file_filename : string;
  file_stream : string
}.

Inductive value :=
  | VNone
  | VBool (b : bool)
  | VInt (n : Z)
  | VStr (s : string)
  | VDate (ordinal : Z)
  | VFile (f : FileStorage).

#[global] Instance FileStorage_eq_dec : EqDecision FileStorage.
Proof. solve_decision. Defined.

#[global] Instance value_eq_dec : EqDecision value.
Proof. solve_decision. Defined.

(** Python truthiness ([if v:]). *)
Definition truthy (v : value) : bool :=
  match v with
  | VNone => false
  | VBool b => b
  | VInt n => negb (Z.eqb n 0)
  | VStr s => negb (String.eqb s "")
  | VDate _ => true
  | VFile _ => true
  end.

(** The name [type(v).__name__] that an [AttributeError] reports. *)
Definition type_name (v : value) : string :=
  match v with
  | VNone => "NoneType"
  | VBool _ => "bool"
  | VInt _ => "int"
  | VStr _ => "unicode"
  | VDate _ => "datetime.date"
  | VFile _ => "FileStorage"
  end.

(** A dictionary such as [form.data]. *)
Abbreviation pydict := (gmap string value).

(** [d.get(k)] and [d.get(k, None)]. *)
Definition dict_get (d : pydict) (k : string) : value :=
  default VNone (d !! k).

(** The identifier handed to [upload_document]: an integer primary key or
    the string drawn by [random_id]. *)
Inductive ident :=
  | IdInt (n : Z)
  | IdStr (s : string).

Definition truthy_id (i : option ident) : bool :=
  match i with
  | None => false
  | Some (IdInt n) => negb (Z.eqb n 0)
  | Some (IdStr s) => negb (String.eqb s "")
  end.

(** ['{}'.format(i)]. *)
Definition format_ident (i : ident) : string :=
  match i with
  | IdInt n => pretty n
  | IdStr s => s
  end.

(** ** Exceptions *)

Inductive exn :=
  | AttributeError (type_of_object attribute : string)
  | KeyError (key : string)
  | ValueError (literal : string)
  | IndexError
  | ValidationError (message : string)
  | NotFound.                   (* abort(404) *)

Inductive outcome (A : Type) :=
  | Ok (a : A)
  | Raise (e : exn).
Arguments Ok {A} a.
Arguments Raise {A} e.

(** ** The store *)

Record Category := mkCategory {
  cat_id : Z;
  category : string;
  subcategory : string
}.

Record Vendor := mkVendor {
  vendor_id : Z;
  email : string;
  business_name : string;
  categories : list Category
}.

Record User := mkUser {
  user_id : Z;
  user_email : value;
  role_id : Z;
  department : value
}.

(** An opportunity row: the primary key and the column values, kept as the
    keyword dictionary that [create] and [update] receive. *)
Record Opportunity := mkOpportunity {
  opp_id : Z;
  opp_attrs : gmap string value
}.

(** An object of the S3 bucket. *)
Record S3Object := mkS3Object {
  s3_contents : string;
  s3_headers : list (string * string);
  s3_acl : string
}.

Definition loc := positive.

Record World := mkWorld {
  category_table : list Category;
  vendor_table : list Vendor;
  user_table : list User;
  opportunity_table : list Opportunity;
  heap : gmap loc (gmap string value);      (* dictionaries, by reference *)
  disk : gmap string string;                (* local files, by path *)
  s3 : gmap (string * string) S3Object;     (* (bucket, key) -> object *)
  rng : nat;                                (* random identifiers drawn *)
  flashes : list (string * string);         (* flash(message, category) *)
  session_email : option string             (* session['email'] *)
}.

(** ** Configuration and collaborators *)

Record Config := mkConfig {
  UPLOAD_S3 : bool;                 (* truth of config.get('UPLOAD_S3') *)
  UPLOAD_DESTINATION : string;
  AWS_ACCESS_KEY_ID : string;
  AWS_SECRET_ACCESS_KEY : string
}.

Record Collaborators := mkCollaborators {
  (* werkzeug.secure_filename *)
  secure_filename : string -> string;
  (* purchasing.utils.random_id n, at the given state of the generator *)
  random_id : nat -> nat -> string;
  (* purchasing.utils._get_aggressive_cache_headers, by key name *)
  _get_aggressive_cache_headers : string -> list (string * string);
  (* boto Key.generate_url(expires_in=0, query_auth=False): bucket, key *)
  generate_url : string -> string -> string;
  (* purchasing.notifications.vendor_signup *)
  vendor_signup : Vendor -> list Category -> bool;
  (* Opportunity.is_published(), at the given day *)
  is_published : Z -> Opportunity -> bool
}.

(** ** The handler monad: state and exceptions *)

Definition M (A : Type) : Type := World -> outcome A * World.

Definition ret {A} (a : A) : M A := fun w => (Ok a, w).

Definition raise {A} (e : exn) : M A := fun w => (Raise e, w).

Definition bind {A B} (m : M A) (k : A -> M B) : M B :=
  fun w =>
    match m w with
    | (Ok a, w') => k a w'
    | (Raise e, w') => (Raise e, w')
    end.

Definition gets {A} (f : World -> A) : M A := fun w => (Ok (f w), w).

Definition modify (f : World -> World) : M unit := fun w => (Ok tt, f w).

Declare Scope handler_scope.
Delimit Scope handler_scope with handler.

Notation "x <- c ;; k" := (bind c (fun x => k))
  (at level 100, c at next level, right associativity) : handler_scope.
Notation "c ;;; k" := (bind c (fun _ => k))
  (at level 100, right associativity) : handler_scope.

Local Open Scope handler_scope.

(** Field updates of the store. *)
Definition set_heap (f : gmap loc (gmap string value) -> gmap loc (gmap string value))
    (w : World) : World :=
  mkWorld (category_table w) (vendor_table w) (user_table w) (opportunity_table w)
          (f (heap w)) (disk w) (s3 w) (rng w) (flashes w) (session_email w).

Definition set_disk (f : gmap string string -> gmap string string) (w : World) : World :=
  mkWorld (category_table w) (vendor_table w) (user_table w) (opportunity_table w)
          (heap w) (f (disk w)) (s3 w) (rng w) (flashes w) (session_email w).

Definition set_s3 (f : gmap (string * string) S3Object -> gmap (string * string) S3Object)
    (w : World) : World :=
  mkWorld (category_table w) (vendor_table w) (user_table w) (opportunity_table w)
          (heap w) (disk w) (f (s3 w)) (rng w) (flashes w) (session_email w).

Definition set_rng (f : nat -> nat) (w : World) : World :=
  mkWorld (category_table w) (vendor_table w) (user_table w) (opportunity_table w)
          (heap w) (disk w) (s3 w) (f (rng w)) (flashes w) (session_email w).

Definition set_users (f : list User -> list User) (w : World) : World :=
  mkWorld (category_table w) (vendor_table w) (f (user_table w)) (opportunity_table w)
          (heap w) (disk w) (s3 w) (rng w) (flashes w) (session_email w).

Definition set_vendors (f : list Vendor -> list Vendor) (w : World) : World :=
  mkWorld (category_table w) (f (vendor_table w)) (user_table w) (opportunity_table w)
          (heap w) (disk w) (s3 w) (rng w) (flashes w) (session_email w).

Definition set_opportunities (f : list Opportunity -> list Opportunity) (w : World) : World :=
  mkWorld (category_table w) (vendor_table w) (user_table w) (f (opportunity_table w))
          (heap w) (disk w) (s3 w) (rng w) (flashes w) (session_email w).

Definition set_flashes (f : list (string * string) -> list (string * string))
    (w : World) : World :=
  mkWorld (category_table w) (vendor_table w) (user_table w) (opportunity_table w)
          (heap w) (disk w) (s3 w) (rng w) (f (flashes w)) (session_email w).

Definition set_session_email (f : option string -> option string) (w : World) : World :=
  mkWorld (category_table w) (vendor_table w) (user_table w) (opportunity_table w)
          (heap w) (disk w) (s3 w) (rng w) (flashes w) (f (session_email w)).

(** [flash(message, category)]. *)
Definition flash (message cat : string) : M unit :=
  modify (set_flashes (fun l => (l ++ [(message, cat)])%list)).

(** ** Upload routing *)

(** [os.path.join(a, b)] of [posixpath], for two components. *)
Definition os_path_join (a b : string) : string :=
  if String.prefix "/" b then b
  else if String.eqb a "" then b
  else if String.eqb (String.substring (Nat.pred (String.length a)) 1 a) "/" then a +:+ b
  else a +:+ "/" +:+ b.

(** [document.filename]: only a [FileStorage] has the attribute. *)
Definition get_filename (document : value) : M string :=
  match document with
  | VFile f => ret (file_filename f)
  | v => raise (AttributeError (type_name v) "filename")
  end.

(** The stream that [set_contents_from_file] and [save] read. *)
Definition get_stream (document : value) : M string :=
  match document with
  | VFile f => ret (file_stream f)
  | v => raise (AttributeError (type_name v) "read")
  end.

Definition is_None (v : value) : bool :=
  match v with VNone => true | _ => false end.

Section Upload.

Variable cfg : Config.
Variable ext : Collaborators.

(** [_id if _id else random_id(6)]. *)
Definition id_or_random (_id : option ident) : M ident :=
  match _id with
  | Some i =>
      if truthy_id _id then ret i
      else r <- gets rng ;; modify (set_rng S) ;;; ret (IdStr (random_id ext 6 r))
  | None => r <- gets rng ;; modify (set_rng S) ;;; ret (IdStr (random_id ext 6 r))
  end.

Definition upload_document (document : value) (_id : option ident)
    : M (value * value) :=
  raw <- get_filename document ;;
  let filename := secure_filename ext raw in
  _id <- id_or_random _id ;;
  if is_None document || String.eqb filename "" then
    ret (VNone, VNone)
  else if UPLOAD_S3 cfg then
    let bucket := UPLOAD_DESTINATION cfg in
    let name := "opportunity-" +:+ format_ident _id +:+ ".pdf" in
    let aggressive_headers := _get_aggressive_cache_headers ext name in
    contents <- get_stream document ;;
    modify (set_s3 (insert (bucket, name)
                           (mkS3Object contents aggressive_headers "private"))) ;;;
    modify (set_s3 (alter (fun o => mkS3Object (s3_contents o) (s3_headers o)
                                               "public-read")
                          (bucket, name))) ;;;
    ret (VStr name, VStr (generate_url ext bucket name))
  else
    let filepath := os_path_join (UPLOAD_DESTINATION cfg) filename in
    contents <- get_stream document ;;
    modify (set_disk (insert filepath contents)) ;;;
    ret (VStr filename, VStr filepath).

End Upload.

(** ** The persistence layer *)

(** The next value of a serial primary key. *)
Definition next_id (ids : list Z) : Z :=
  1 + fold_right Z.max 0 ids.

(** Table look-ups: the first row that matches. *)
Definition lookup_user (tbl : list User) (e : value) : option User :=
  List.find (fun u => bool_decide (user_email u = e)) tbl.

Definition lookup_opportunity (tbl : list Opportunity) (i : Z) : option Opportunity :=
  List.find (fun o => Z.eqb (opp_id o) i) tbl.

Definition lookup_category (tbl : list Category) (i : Z) : option Category :=
  List.find (fun c => Z.eqb (cat_id c) i) tbl.

Definition lookup_vendor (tbl : list Vendor) (e : string) : option Vendor :=
  List.find (fun v => String.eqb (email v) e) tbl.

(** [User.query.filter(User.email == e).first()]. *)
Definition User_first_by_email (e : value) : M (option User) :=
  gets (fun w => lookup_user (user_table w) e).

(** Modelled from the spec: [User().create] of the persistence layer, which
    is not part of this module; it inserts the row under a fresh primary key
    and returns it. *)
Definition User_create (e : value) (role : Z) (dept : value) : M User :=
  ids <- gets (fun w => map user_id (user_table w)) ;;
  let u := mkUser (next_id ids) e role dept in
  modify (set_users (fun l => (l ++ [u])%list)) ;;;
  ret u.

(** [Opportunity.query.get(i)]: the row with that primary key, if any. *)
Definition Opportunity_get (i : Z) : M (option Opportunity) :=
  gets (fun w => lookup_opportunity (opportunity_table w) i).

(** Modelled from the spec: [Opportunity.create] of the persistence layer,
    which is not part of this module; it inserts a new row holding the
    keyword arguments under a fresh primary key and returns it. *)
Definition Opportunity_create (kwargs : pydict) : M Opportunity :=
  ids <- gets (fun w => map opp_id (opportunity_table w)) ;;
  let o := mkOpportunity (next_id ids) kwargs in
  modify (set_opportunities (fun l => (l ++ [o])%list)) ;;;
  ret o.

(** Modelled from the spec: [opportunity.update] of the persistence layer,
    which is not part of this module; it overwrites the given columns of the
    existing row in place (same primary key, other columns kept) and returns
    the row. *)
Definition replace_opportunity (o : Opportunity) (tbl : list Opportunity)
    : list Opportunity :=
  map (fun r => if Z.eqb (opp_id r) (opp_id o) then o else r) tbl.

Definition Opportunity_update (o : Opportunity) (kwargs : pydict) : M Opportunity :=
  let o' := mkOpportunity (opp_id o) (kwargs ∪ opp_attrs o) in
  modify (set_opportunities (replace_opportunity o')) ;;;
  ret o'.

(** [Category.query.get(i)]. *)
Definition Category_get (i : Z) : M (option Category) :=
  gets (fun w => lookup_category (category_table w) i).

(** [Vendor.query.filter(Vendor.email == e).first()]. *)
Definition Vendor_first_by_email (e : string) : M (option Vendor) :=
  gets (fun w => lookup_vendor (vendor_table w) e).

(** Writes the row of a loaded vendor back (the session's commit). *)
Definition replace_vendor (v : Vendor) (tbl : list Vendor) : list Vendor :=
  map (fun r => if Z.eqb (vendor_id r) (vendor_id v) then v else r) tbl.

Definition Vendor_save (v : Vendor) : M unit :=
  modify (set_vendors (replace_vendor v)).

(** Modelled from the spec: [Vendor.create] of the persistence layer, which
    is not part of this module; it inserts the row under a fresh primary key
    and returns it. *)
Definition Vendor_create (e bis : string) (cats : list Category) : M Vendor :=
  ids <- gets (fun w => map vendor_id (vendor_table w)) ;;
  let v := mkVendor (next_id ids) e bis cats in
  modify (set_vendors (fun l => (l ++ [v])%list)) ;;;
  ret v.

(** Modelled from the spec: [vendor.update] of the persistence layer, which
    is not part of this module; it overwrites the submitted columns and the
    category collection of the existing row. *)
Definition Vendor_update (v : Vendor) (e bis : string) (cats : list Category) : M Vendor :=
  let v' := mkVendor (vendor_id v) e bis cats in
  Vendor_save v' ;;; ret v'.

(** ** Dictionaries held by reference *)

Definition deref (w : World) (l : loc) : pydict :=
  default ∅ (heap w !! l).

(** [d.pop(k)]: removes the key from the dictionary itself. *)
Definition dict_pop (l : loc) (k : string) : M value :=
  d <- gets (fun w => deref w l) ;;
  match d !! k with
  | Some v => modify (set_heap (insert l (delete k d))) ;;; ret v
  | None => raise (KeyError k)
  end.

(** [d.get(k)] on a referenced dictionary. *)
Definition dict_get_ref (l : loc) (k : string) : M value :=
  gets (fun w => dict_get (deref w l) k).

(** [d.update(dict(k1=v1, ...))]: stores every pair in the dictionary
    itself. *)
Definition dict_update (l : loc) (kvs : list (string * value)) : M unit :=
  modify (fun w =>
    set_heap (insert l (fold_left (fun d kv => <[kv.1 := kv.2]> d) kvs (deref w l))) w).

(** ** Opportunity build/update *)

Section Build.

Variable cfg : Config.
Variable ext : Collaborators.

Definition build_opportunity (data : loc) (opportunity : option Opportunity)
    : M Opportunity :=
  contact_email <- dict_pop data "contact_email" ;;
  found <- User_first_by_email contact_email ;;
  contact <- match found with
             | Some u => ret u
             | None =>
                 dept <- dict_get_ref data "department" ;;
                 User_create contact_email 2 dept
             end ;;
  let _id := match opportunity with
             | Some o => Some (IdInt (opp_id o))
             | None => None
             end in
  document <- dict_get_ref data "document" ;;
  uploaded <- upload_document cfg ext document _id ;;
  let filename := uploaded.1 in
  let filepath := uploaded.2 in
  dict_update data [("contact_id", VInt (user_id contact));
                    ("created_by", VInt 1);
                    ("document", filename);
                    ("document_href", filepath)] ;;;
  kwargs <- gets (fun w => deref w data) ;;
  match opportunity with
  | Some o => Opportunity_update o kwargs
  | None => Opportunity_create kwargs
  end.

End Build.

(** ** Responses *)

Inductive response :=
  | Redirect (endpoint : string)
  | RenderSignup (email_data : option string)
  | RenderManage (email_errors : list string) (choices : list (Z * string))
  | RenderBrowse (opportunities active upcoming : list Opportunity)
  | RenderDetail (opportunity : Opportunity).

(** ** Text helpers *)

(** [s.split(sep)] for a one-character separator. *)
Fixpoint split_on (sep : ascii) (s : string) : list string :=
  match s with
  | EmptyString => [""]
  | String c rest =>
      if Ascii.eqb c sep then "" :: split_on sep rest
      else match split_on sep rest with
           | h :: t => String c h :: t
           | [] => [String c ""]
           end
  end.

(** [l[i]]. *)
Definition py_index {A} (l : list A) (i : nat) : M A :=
  match nth_error l i with
  | Some x => ret x
  | None => raise IndexError
  end.

Definition is_space (c : ascii) : bool :=
  let n := nat_of_ascii c in
  (Nat.leb 9 n && Nat.leb n 13) || Nat.eqb n 32.

Fixpoint lstrip (l : list ascii) : list ascii :=
  match l with
  | c :: rest => if is_space c then lstrip rest else l
  | [] => []
  end.

Definition strip (l : list ascii) : list ascii :=
  rev (lstrip (rev (lstrip l))).

Definition digit_of (c : ascii) : option Z :=
  let n := Z.of_nat (nat_of_ascii c) in
  if Z.leb 48 n && Z.leb n 57 then Some (n - 48) else None.

Fixpoint digits_value (acc : Z) (l : list ascii) : option Z :=
  match l with
  | [] => Some acc
  | c :: rest =>
      match digit_of c with
      | Some d => digits_value (10 * acc + d) rest
      | None => None
      end
  end.

(** [int(s)] on decimal literals: optional surrounding white space, an
    optional sign, at least one digit.  Anything else is a [ValueError].
    The strings of this model are byte strings and the digits and white
    space recognised are the ASCII ones; on a field name made of ASCII
    letters and digits this is [int] exactly.  Python's [int] also reads
    Unicode digits and white space: the statements below that depend on a
    parse failing assume [plain_fields]. *)
Definition parse_int (s : string) : option Z :=
  let body := strip (list_ascii_of_string s) in
  match body with
  | [] => None
  | c :: rest =>
      if Ascii.eqb c "+" then
        match rest with [] => None | _ => digits_value 0 rest end
      else if Ascii.eqb c "-" then
        match rest with [] => None | _ => Z.opp <$> digits_value 0 rest end
      else digits_value 0 body
  end.

Definition py_int (s : string) : M Z :=
  match parse_int s with
  | Some n => ret n
  | None => raise (ValueError s)
  end.

(** [s.lower()] on ASCII letters, which is what [unicode.lower] does on
    an ASCII text.  Outside ASCII [unicode.lower] maps further characters
    (the Kelvin sign to ['k']): the statements below that depend on the
    lowered text differing from a constant assume [is_ascii_text]. *)
Definition lower_ascii (c : ascii) : ascii :=
  let n := nat_of_ascii c in
  if Nat.leb 65 n && Nat.leb n 90 then ascii_of_nat (n + 32) else c.

Fixpoint lower (s : string) : string :=
  match s with
  | EmptyString => EmptyString
  | String c rest => String (lower_ascii c) (lower rest)
  end.

(** ** Vendor signup *)

Record SignupRequest := mkSignupRequest {
  su_valid : bool;                            (* form.validate_on_submit() *)
  su_email : string;                          (* form.data.get('email') *)
  su_business_name : string;                  (* form.data.get('business_name') *)
  su_fields : list (string * string);         (* request.form.iteritems() *)
  su_page_email : option string               (* request.args.get('email', None) *)
}.

(** The manual iteration over the submitted fields: [subcats] is the set of
    identifiers seen so far, [cats] is [form_data['categories']]. *)
Fixpoint collect_subcategories (fields : list (string * string))
    (subcats : gset Z) (cats : list Category) : M (list Category) :=
  match fields with
  | [] => ret cats
  | (k, v) :: rest =>
      if negb (String.prefix "subcategories-" k) then
        collect_subcategories rest subcats cats
      else
        part <- py_index (split_on "-" k) 1 ;;
        subcat_id <- py_int part ;;
        if String.eqb v "on" && negb (bool_decide (subcat_id ∈ subcats)) then
          subcat <- Category_get subcat_id ;;
          match subcat with
          | None =>
              (* '{} is not a valid choice!'.format(subcat), subcat being None *)
              raise (ValidationError ("None" +:+ " is not a valid choice!"))
          | Some c =>
              collect_subcategories rest ({[subcat_id]} ∪ subcats) (cats ++ [c])%list
          end
        else collect_subcategories rest subcats cats
  end.

Section Signup.

Variable ext : Collaborators.

(** The handler up to the point where the page is rendered: the submit
    branch (lines 59-122, without its logging calls), the two redirects, and
    the session handling before rendering.  The context of the rendered page, and the
    [ValueError] its computation can raise, are [signup_context]; the
    handler as a whole is [signup_page]. *)
Definition signup (req : SignupRequest) : M response :=
  if su_valid req then
    vendor <- Vendor_first_by_email (su_email req) ;;
    cats <- collect_subcategories (su_fields req) ∅ [] ;;
    match vendor with
    | Some v =>
        Vendor_update v (su_email req) (su_business_name req) cats ;;;
        flash "You are already signed up! Your profile was updated with this new information"
              "alert-info" ;;;
        ret (Redirect "opportunities.index")
    | None =>
        v <- Vendor_create (su_email req) (su_business_name req) cats ;;
        (if vendor_signup ext v cats then
           flash "Thank you for signing up! Check your email for more information"
                 "alert-success"
         else
           flash "Uh oh, something went wrong. We are investigating." "alert-danger") ;;;
        ret (Redirect "opportunities.index")
    end
  else
    match su_page_email req with
    | Some page_email =>
        if negb (String.eqb page_email "") then
          modify (set_session_email (fun _ => Some page_email)) ;;;
          ret (Redirect "opportunities.signup")
        else
          prefill <- gets session_email ;;
          modify (set_session_email (fun _ => None)) ;;;
          ret (RenderSignup prefill)
    | None =>
        prefill <- gets session_email ;;
        modify (set_session_email (fun _ => None)) ;;;
        ret (RenderSignup prefill)
    end.

End Signup.

(** ** Subscription management *)

Record ManageRequest := mkManageRequest {
  mg_valid : bool;                  (* form.validate_on_submit() *)
  mg_errors : list string;          (* form.email.errors left by validation *)
  mg_email : string;                (* form.data.get('email') *)
  mg_button : option string;        (* request.form.get('button') *)
  mg_subscriptions : list Z         (* form.subscriptions.data *)
}.

(** [vendor.categories] on the result of [first()]. *)
Definition get_categories (vendor : option Vendor) : M (list Category) :=
  match vendor with
  | Some v => ret (categories v)
  | None => raise (AttributeError "NoneType" "categories")
  end.

(** [[Category.query.get(i) for i in subscriptions]]. *)
Fixpoint Category_get_all (ids : list Z) : M (list (option Category)) :=
  match ids with
  | [] => ret []
  | i :: rest =>
      c <- Category_get i ;;
      cs <- Category_get_all rest ;;
      ret (c :: cs)
  end.

(** The assignment [vendor.categories = l] followed by the commit.  The
    relationship collection holds mapped objects only: a [None] entry is
    refused by the instrumented collection. *)
Definition assign_categories (vendor : option Vendor) (l : list (option Category))
    : M (option Vendor) :=
  match vendor with
  | None => raise (AttributeError "NoneType" "categories")
  | Some v =>
      if forallb (fun c => match c with Some _ => true | None => false end) l then
        let v' := mkVendor (vendor_id v) (email v) (business_name v) (omap id l) in
        Vendor_save v' ;;; ret (Some v')
      else raise (AttributeError "NoneType" "_sa_instance_state")
  end.

Definition manage (req : ManageRequest) : M response :=
  if mg_valid req then
    let email := mg_email req in
    vendor <- Vendor_first_by_email email ;;
    let errors :=
      match vendor with
      | None => ["We could not find the email " +:+ email]
      | Some _ => mg_errors req
      end in
    vendor <-
      (if String.eqb (lower (default "" (mg_button req))) "unsubscribe from checked" then
         current <- get_categories vendor ;;
         let subscriptions : list Z :=
           elements ((list_to_set (map cat_id current) : gset Z)
                       ∖ list_to_set (mg_subscriptions req)) in
         kept <- Category_get_all subscriptions ;;
         vendor <- assign_categories vendor kept ;;
         flash "Preferences updated!" "alert-success" ;;;
         ret vendor
       else ret vendor) ;;
    let form_subscriptions :=
      match vendor with
      | Some v => map (fun s => (cat_id s, subcategory s)) (categories v)
      | None => []
      end in
    ret (RenderManage errors form_subscriptions)
  else
    ret (RenderManage (mg_errors req) []).

(** ** Browsing and detail *)

(** [opportunity.is_public]. *)
Definition is_public (o : Opportunity) : value :=
  dict_get (opp_attrs o) "is_public".

(** The filter [Opportunity.planned_deadline >= today]; a row without a
    deadline does not satisfy the comparison. *)
Definition deadline_not_passed (today : Z) (o : Opportunity) : bool :=
  match opp_attrs o !! "planned_deadline" with
  | Some (VDate d) => Z.leb today d
  | _ => false
  end.

Section Browse.

Variable ext : Collaborators.

(** The loop of [browse] over the fetched rows, appending to [active] and
    [upcoming]. *)
Fixpoint browse_loop (today : Z) (opportunities active upcoming : list Opportunity)
    : list Opportunity * list Opportunity :=
  match opportunities with
  | [] => (active, upcoming)
  | opportunity :: rest =>
      if truthy (is_public opportunity) then
        if is_published ext today opportunity then
          browse_loop today rest (active ++ [opportunity])%list upcoming
        else
          browse_loop today rest active (upcoming ++ [opportunity])%list
      else browse_loop today rest active upcoming
  end.

Definition browse (today : Z) : M response :=
  opportunities <-
    gets (fun w => List.filter (deadline_not_passed today) (opportunity_table w)) ;;
  let split := browse_loop today opportunities [] [] in
  ret (RenderBrowse opportunities split.1 split.2).

End Browse.

Definition detail (opportunity_id : Z) : M response :=
  found <- Opportunity_get opportunity_id ;;
  match found with
  | Some opportunity =>
      if truthy (is_public opportunity) then ret (RenderDetail opportunity)
      else raise NotFound
  | None => raise NotFound
  end.

(** ** The signup page *)

(** [d[k].append(x)] on a [defaultdict(list)]. *)
Definition dd_append (k : string) (x : Z * string)
    (d : gmap string (list (Z * string))) : gmap string (list (Z * string)) :=
  <[k := (default [] (d !! k) ++ [x])%list]> d.

(** The loop over [Category.query.all()] at the top of [signup]: the set
    [categories] of the category labels and the lists [subcategories] of
    [(id, subcategory)] pairs, under each label and under ['Select All']. *)
Fixpoint category_listing (all_categories : list Category)
    (categories : gset string) (subcategories : gmap string (list (Z * string)))
    : gset string * gmap string (list (Z * string)) :=
  match all_categories with
  | [] => (categories, subcategories)
  | c :: rest =>
      category_listing rest ({[category c]} ∪ categories)
        (dd_append (category c) (cat_id c, subcategory c)
           (dd_append "Select All" (cat_id c, subcategory c) subcategories))
  end.

(** [sorted(l)] on strings, which compare by code point. *)
Fixpoint sorted_insert (x : string) (l : list string) : list string :=
  match l with
  | [] => [x]
  | y :: rest => if String.leb x y then x :: l else y :: sorted_insert x rest
  end.

Definition py_sorted (l : list string) : list string :=
  fold_right sorted_insert [] l.

(** [l.remove(x)]: drops the first occurrence; [None] stands for the
    [ValueError] raised when there is none. *)
Fixpoint py_remove (x : string) (l : list string) : option (list string) :=
  match l with
  | [] => None
  | y :: rest => if String.eqb y x then Some rest else cons y <$> py_remove x rest
  end.

(** What the rendering branch of [signup] hands to the form and the
    template: the choices of [form.categories], the dictionary
    [subcategories] and the list [categories] (both serialized by
    [json.dumps] in the source). *)
Record SignupContext := mkSignupContext {
  form_categories_choices : list (option string * string);
  ctx_subcategories : gmap string (list (Z * string));
  ctx_categories : list string
}.

Definition signup_context : M SignupContext :=
  all_categories <- gets category_table ;;
  let listing := category_listing all_categories ∅ ∅ in
  let choices :=
    ([(None, "---")]
       ++ map (fun c => (Some c, c)) (py_sorted (elements listing.1))
       ++ [(Some "Select All", "Select All")])%list in
  (* display_categories = subcategories.keys() *)
  let display_categories := elements (dom listing.2) in
  match py_remove "Select All" display_categories with
  | None => raise (ValueError "list.remove(x): x not in list")
  | Some display =>
      ret (mkSignupContext choices listing.2
                           (py_sorted display ++ ["Select All"])%list)
  end.

Section SignupPage.

Variable ext : Collaborators.

(** [signup] together with the context of the page it renders. *)
Definition signup_page (req : SignupRequest) : M (response * option SignupContext) :=
  r <- signup ext req ;;
  match r with
  | RenderSignup _ => ctx <- signup_context ;; ret (r, Some ctx)
  | _ => ret (r, None)
  end.

End SignupPage.

(** ** Administration: new and edit *)

Record OpportunityRequest := mkOpportunityRequest {
  op_valid : bool;                  (* form.validate_on_submit() *)
  op_data : gmap string value       (* form.data, as the form was filled *)
}.

Inductive admin_response :=
  | RedirectEdit (opportunity_id : Z)       (* url_for('opportunities.edit', ...) *)
  | RenderOpportunity (opportunity : option Opportunity).

Definition lookup_user_by_id (tbl : list User) (i : Z) : option User :=
  List.find (fun u => Z.eqb (user_id u) i) tbl.

(** [form.data] builds a new dictionary: it gets a reference of its own. *)
Definition alloc_dict (d : gmap string value) : M loc :=
  fun w => let l := fresh (dom (heap w)) in (Ok l, set_heap (insert l d) w).

(** Modelled from the spec: the relationship [opportunity.contact] of the
    model, which is not part of this module; it is the user that the column
    [contact_id] refers to. *)
Definition Opportunity_contact (o : Opportunity) : M (option User) :=
  gets (fun w =>
    match opp_attrs o !! "contact_id" with
    | Some (VInt n) => lookup_user_by_id (user_table w) n
    | _ => None
    end).

(** [user.email] on the result of the relationship. *)
Definition get_email (contact : option User) : M value :=
  match contact with
  | Some u => ret (user_email u)
  | None => raise (AttributeError "NoneType" "email")
  end.

Section Admin.

Variable cfg : Config.
Variable ext : Collaborators.

Definition new (req : OpportunityRequest) : M admin_response :=
  if op_valid req then
    data <- alloc_dict (op_data req) ;;
    opportunity <- build_opportunity cfg ext data None ;;
    flash "Opportunity Successfully Created!" "alert-success" ;;;
    ret (RedirectEdit (opp_id opportunity))
  else ret (RenderOpportunity None).

Definition edit (opportunity_id : Z) (req : OpportunityRequest) : M admin_response :=
  found <- Opportunity_get opportunity_id ;;
  match found with
  | Some opportunity =>
      (* form.contact_email.data = opportunity.contact.email *)
      contact <- Opportunity_contact opportunity ;;
      contact_email <- get_email contact ;;
      if op_valid req then
        data <- alloc_dict (<["contact_email" := contact_email]> (op_data req)) ;;
        build_opportunity cfg ext data (Some opportunity) ;;;
        flash "Opportunity Successfully Updated!" "alert-success" ;;;
        ret (RedirectEdit (opp_id opportunity))
      else ret (RenderOpportunity (Some opportunity))
  | None => raise NotFound
  end.

End Admin.

(** ** Vocabulary of the statements *)

(** The identifiers of the categories a vendor is subscribed to. *)
Definition subscription_ids (v : Vendor) : gset Z :=
  list_to_set (map cat_id (categories v)).

(** The row that the unsubscribe branch of [manage] commits for a vendor. *)
Definition unsubscribed (tbl : list Category) (v : Vendor) (removals : list Z) : Vendor :=
  mkVendor (vendor_id v) (email v) (business_name v)
           (omap id (map (lookup_category tbl)
                         (elements (subscription_ids v ∖ list_to_set removals)))).

(** The identifier [build_opportunity] hands to upload routing. *)
Definition upload_id (opportunity : option Opportunity) : option ident :=
  match opportunity with
  | Some o => Some (IdInt (opp_id o))
  | None => None
  end.

(** The contact [build_opportunity] works with: the first user under the
    email, or else the placeholder it creates. *)
Definition resolved_contact (w : World) (data : loc) (e : value) : User :=
  match lookup_user (user_table w) e with
  | Some u => u
  | None =>
      mkUser (next_id (map user_id (user_table w))) e 2
             (dict_get (deref w data) "department")
  end.

(** The dictionary after the [pop] and the [update] of [build_opportunity]. *)
Definition merged (d : pydict) (contact_id : Z) (filename filepath : value) : pydict :=
  <["document_href" := filepath]>
    (<["document" := filename]>
       (<["created_by" := VInt 1]>
          (<["contact_id" := VInt contact_id]> (delete "contact_email" d)))).

(** The [(id, subcategory)] pairs that the signup page lists under a key:
    every row under ['Select All'], and each row under its own category
    label, in the order of the table. *)
Definition listed_under (k : string) (all_categories : list Category)
    : list (Z * string) :=
  flat_map (fun c =>
              ((if String.eqb k "Select All" then [(cat_id c, subcategory c)] else [])
                 ++ (if String.eqb (category c) k then [(cat_id c, subcategory c)]
                     else []))%list)
           all_categories.

(** Each string is at most the next one, by code point. *)
Fixpoint is_sorted (l : list string) : bool :=
  match l with
  | x :: (y :: _) as rest => String.leb x y && is_sorted rest
  | _ => true
  end.

(** Texts and field names on which the model's [lower] and [parse_int]
    are the functions of the language: ASCII texts, and subcategory fields
    whose part after the first dash holds ASCII letters and digits only. *)
Definition is_ascii_text (s : string) : bool :=
  forallb (fun c => Nat.ltb (nat_of_ascii c) 128) (list_ascii_of_string s).

Definition ascii_alnum (c : ascii) : bool :=
  let n := nat_of_ascii c in
  (Nat.leb 48 n && Nat.leb n 57) || (Nat.leb 65 n && Nat.leb n 90)
  || (Nat.leb 97 n && Nat.leb n 122).

Definition plain_field_name (k : string) : bool :=
  match nth_error (split_on "-" k) 1 with
  | Some part => forallb ascii_alnum (list_ascii_of_string part)
  | None => true
  end.

Definition plain_fields (fields : list (string * string)) : bool :=
  forallb (fun kv => negb (String.prefix "subcategories-" kv.1)
                     || plain_field_name kv.1) fields.

(** A submission all of whose texts are in that domain: its subcategory
    fields, its email and business name, and the business name of the vendor
    already stored under the email.  The handler formats the last three into
    a byte-string log line (lines 82-95 and 104-110) before it writes, which
    the language refuses for a text outside ASCII. *)
Definition plain_submission (w : World) (req : SignupRequest) : bool :=
  plain_fields (su_fields req)
  && is_ascii_text (su_email req)
  && is_ascii_text (su_business_name req)
  && match lookup_vendor (vendor_table w) (su_email req) with
     | Some v0 => is_ascii_text (business_name v0)
     | None => true
     end.

(** The subcategory identifier that a submitted field checks, if it is a
    checked ['subcategories-<id>'] field. *)
Definition checked_id (k v : string) : option Z :=
  if String.prefix "subcategories-" k && String.eqb v "on" then
    nth_error (split_on "-" k) 1 ≫= parse_int
  else None.

(** ** A sample deployment, used to run the handlers on concrete requests *)

Module Sample.

Definition ext : Collaborators :=
  {| secure_filename := fun s => s;
     random_id := fun n seed => String.substring 0 n "q7x2mk";
     _get_aggressive_cache_headers :=
       fun _ => [("Cache-Control", "max-age=31536000, public")];
     generate_url := fun b k => "https://" +:+ b +:+ ".s3.amazonaws.com/" +:+ k;
     vendor_signup := fun _ _ => true;
     is_published := fun today o =>
       match opp_attrs o !! "planned_advertise" with
       | Some (VDate d) => Z.leb d today
       | _ => false
       end |}.

Definition on_s3 : Config := mkConfig true "beacon-uploads" "key" "secret".
Definition on_disk : Config := mkConfig false "/var/uploads" "" "".

Definition cat1 := mkCategory 1 "Construction" "Paving".
Definition cat2 := mkCategory 2 "Construction" "Roofing".
Definition cat3 := mkCategory 3 "Office" "Paper".

Definition vendor_a := mkVendor 1 "a@x.com" "A Inc" [cat2; cat3].

Definition staff := mkUser 1 (VStr "staff@city.gov") 1 (VStr "Finance").

Definition opp (i : Z) (public : bool) (advertise deadline : Z) : Opportunity :=
  mkOpportunity i
    (<["is_public" := VBool public]>
       (<["planned_advertise" := VDate advertise]>
          (<["planned_deadline" := VDate deadline]> ∅))).

Definition report : FileStorage := mkFile "scope.docx" "contents".

(** [form.data] of a valid opportunity form, held at reference 1. *)
Definition form_data : pydict :=
  <["contact_email" := VStr "new@city.gov"]>
    (<["title" := VStr "Road salt"]>
       (<["department" := VStr "Public Works"]>
          (<["document" := VFile report]> ∅))).

(** A dictionary without the key [contact_email], at reference 2. *)
Definition bare_data : pydict :=
  <["title" := VStr "Road salt"]> (<["document" := VFile report]> ∅).

(** A form submitted without a file part, at reference 3. *)
Definition no_file_data : pydict :=
  <["contact_email" := VStr "staff@city.gov"]>
    (<["title" := VStr "Road salt"]> (<["document" := VNone]> ∅)).

Definition world : World :=
  {| category_table := [cat1; cat2; cat3];
     vendor_table := [vendor_a];
     user_table := [staff];
     opportunity_table := [opp 1 true 10 30; opp 2 true 25 40; opp 3 false 5 30];
     heap := <[1%positive := form_data]>
               (<[2%positive := bare_data]>
                  (<[3%positive := no_file_data]> ∅));
     disk := ∅;
     s3 := ∅;
     rng := 0;
     flashes := [];
     session_email := None |}.

End Sample.

(** A second sample store, for the administration pages: the opportunities
    of [Sample.world] with their contact filled in. *)
Module AdminSample.

Definition with_contact (n : Z) (o : Opportunity) : Opportunity :=
  mkOpportunity (opp_id o) (<["contact_id" := VInt n]> (opp_attrs o)).

Definition world : World :=
  set_opportunities (map (with_contact 1)) Sample.world.

(** An edit form that changes the title and attaches a file. *)
Definition edit_form : gmap string value :=
  <["title" := VStr "Road salt, second call"]>
    (<["document" := VFile Sample.report]> ∅).

End AdminSample.

(** * Properties *)

(** Stepping through the handler monad. *)
Ltac unfold_monad :=
  unfold bind, ret, raise, gets, modify in *.

(** ** Upload routing *)

(** The value returned by [upload_document] is decided by the document, the
    identifier and the state of the random generator alone. *)
Lemma upload_document_value cfg ext document _id w1 w2 :
  rng w1 = rng w2 ->
  (upload_document cfg ext document _id w1).1
  = (upload_document cfg ext document _id w2).1.
Proof.
  intros Hr. unfold upload_document, id_or_random, get_filename, get_stream.
  destruct document; unfold_monad; cbn; try reflexivity.
  destruct _id as [i|]; [destruct (truthy_id (Some i))|]; cbn;
    destruct (String.eqb _ ""); cbn; try reflexivity;
    destruct (UPLOAD_S3 cfg); cbn; rewrite ?Hr; reflexivity.
Qed.

(** C1 (negative part): a call without a file, [document] being [None],
    does not return the empty result: reading [document.filename] raises
    an [AttributeError] before the guard [document is None] is reached, in
    both storage modes and for every identifier; nothing is recorded. *)
Theorem upload_document_None_raises cfg ext _id w :
  upload_document cfg ext VNone _id w
  = (Raise (AttributeError "NoneType" "filename"), w).
Proof. reflexivity. Qed.

(** The other half of the guard works: a file whose sanitized name is empty
    gives the empty result in both modes and stores nothing. *)
Lemma upload_document_empty_filename cfg ext f _id w :
  secure_filename ext (file_filename f) = "" ->
  exists w',
    upload_document cfg ext (VFile f) _id w = (Ok (VNone, VNone), w')
    /\ disk w' = disk w /\ s3 w' = s3 w.
Proof.
  intros He. unfold upload_document, id_or_random, get_filename.
  unfold_monad. cbn. rewrite He. cbn.
  destruct _id as [i|]; [destruct (truthy_id (Some i))|]; cbn; eauto.
Qed.

Lemma upload_document_empty_filename_witness :
  exists w',
    upload_document Sample.on_s3 Sample.ext (VFile (mkFile "" "")) None Sample.world
    = (Ok (VNone, VNone), w')
    /\ disk w' = disk Sample.world /\ s3 w' = s3 Sample.world.
Proof.
  apply (upload_document_empty_filename Sample.on_s3 Sample.ext (mkFile "" "") None
           Sample.world).
  reflexivity.
Defined.

(** C10: in object-storage mode the stored key is ['opportunity-' + i +
    '.pdf'], where [i] is the identifier the call works with (the supplied
    one when it is given, the drawn one otherwise); the key is fixed by
    that identifier alone, whatever the uploaded file is called.  The
    sanitized file name becomes the stored name only in local-disk mode. *)
Theorem upload_document_s3_key cfg ext f _id w :
  secure_filename ext (file_filename f) <> "" ->
  exists i w1,
    id_or_random ext _id w = (Ok i, w1)
    /\ (truthy_id _id = true -> _id = Some i)
    /\ (UPLOAD_S3 cfg = true ->
        let name := "opportunity-" +:+ format_ident i +:+ ".pdf" in
        exists w',
          upload_document cfg ext (VFile f) _id w
          = (Ok (VStr name, VStr (generate_url ext (UPLOAD_DESTINATION cfg) name)), w')
          /\ s3 w' !! (UPLOAD_DESTINATION cfg, name)
             = Some (mkS3Object (file_stream f)
                                (_get_aggressive_cache_headers ext name) "public-read")
          /\ disk w' = disk w)
    /\ (UPLOAD_S3 cfg = false ->
        let filename := secure_filename ext (file_filename f) in
        let filepath := os_path_join (UPLOAD_DESTINATION cfg) filename in
        exists w',
          upload_document cfg ext (VFile f) _id w
          = (Ok (VStr filename, VStr filepath), w')
          /\ disk w' !! filepath = Some (file_stream f)
          /\ s3 w' = s3 w).
Proof.
  intros Hne. apply String.eqb_neq in Hne.
  assert (Hid : exists i w1, id_or_random ext _id w = (Ok i, w1)
                 /\ (truthy_id _id = true -> _id = Some i)
                 /\ disk w1 = disk w /\ s3 w1 = s3 w).
  { unfold id_or_random. unfold_monad.
    destruct _id as [i|]; [destruct (truthy_id (Some i)) eqn:Ht|]; cbn;
      eexists _, _; repeat split; try reflexivity; intros; congruence. }
  destruct Hid as (i & w1 & Hid & Hsup & Hdisk & Hs3).
  exists i, w1. repeat split; [exact Hid | exact Hsup | |].
  - intros Hmode name. unfold upload_document, get_filename, get_stream.
    unfold bind at 1. unfold ret at 1. unfold bind at 1. rewrite Hid.
    cbn. rewrite Hne, Hmode. unfold_monad. cbn.
    eexists. split; [reflexivity|]. cbn. split; [|exact Hdisk].
    rewrite lookup_alter_eq, lookup_insert_eq. reflexivity.
  - intros Hmode filename filepath. unfold upload_document, get_filename, get_stream.
    unfold bind at 1. unfold ret at 1. unfold bind at 1. rewrite Hid.
    cbn. rewrite Hne, Hmode. unfold_monad. cbn.
    eexists. split; [reflexivity|]. cbn. split; [|exact Hs3].
    apply lookup_insert_eq.
Qed.

(** Two differently named files under the same identifier: one key. *)
Lemma upload_document_s3_key_witness :
  exists w' w'',
    upload_document Sample.on_s3 Sample.ext (VFile (mkFile "scope.docx" "a"))
                    (Some (IdInt 7)) Sample.world
    = (Ok (VStr "opportunity-7.pdf",
           VStr "https://beacon-uploads.s3.amazonaws.com/opportunity-7.pdf"), w')
    /\ upload_document Sample.on_s3 Sample.ext (VFile (mkFile "bid.pdf" "b"))
                       (Some (IdInt 7)) Sample.world
       = (Ok (VStr "opportunity-7.pdf",
              VStr "https://beacon-uploads.s3.amazonaws.com/opportunity-7.pdf"), w'').
Proof.
  destruct (upload_document_s3_key Sample.on_s3 Sample.ext (mkFile "scope.docx" "a")
              (Some (IdInt 7)) Sample.world) as (i & w1 & Hid & _ & Hs3 & _);
    [discriminate|].
  destruct (upload_document_s3_key Sample.on_s3 Sample.ext (mkFile "bid.pdf" "b")
              (Some (IdInt 7)) Sample.world) as (j & w2 & Hjd & _ & Hs3' & _);
    [discriminate|].
  destruct (Hs3 eq_refl) as (w' & Hrun & _).
  destruct (Hs3' eq_refl) as (w'' & Hrun' & _).
  exists w', w''.
  vm_compute in Hid. injection Hid as <- _.
  vm_compute in Hjd. injection Hjd as <- _.
  split; [exact Hrun | exact Hrun'].
Defined.

(** ** Subscription management *)

(** X2: without the unsubscribe button an unknown email is reported
    inline: for an ASCII email and an ASCII button text that is not
    'unsubscribe from checked' in any letter case, the form is rendered
    with the error and no table is touched. *)
Lemma manage_unknown_email_reported req w :
  mg_valid req = true ->
  is_ascii_text (mg_email req) = true ->
  is_ascii_text (default "" (mg_button req)) = true ->
  lookup_vendor (vendor_table w) (mg_email req) = None ->
  String.eqb (lower (default "" (mg_button req))) "unsubscribe from checked" = false ->
  manage req w
  = (Ok (RenderManage ["We could not find the email " +:+ mg_email req] []), w).
Proof.
  intros Hv _ _ Hf Hb. unfold manage, Vendor_first_by_email. rewrite Hv.
  unfold_monad. rewrite Hf, Hb. reflexivity.
Qed.

Lemma manage_unknown_email_reported_witness :
  manage (mkManageRequest true [] "nobody@x.com" (Some "Look up") []) Sample.world
  = (Ok (RenderManage ["We could not find the email nobody@x.com"] []), Sample.world).
Proof.
  apply (manage_unknown_email_reported
           (mkManageRequest true [] "nobody@x.com" (Some "Look up") []) Sample.world);
    reflexivity.
Defined.

(** C2 (negative part): when the email matches no vendor and the button
    'unsubscribe from checked' was pressed, the handler does not render the
    form: after noting the inline error it reads [vendor.categories] on
    [None] and ends in an [AttributeError].  No vendor row is modified. *)
Theorem manage_unknown_email_unsubscribe_raises req w :
  mg_valid req = true ->
  lookup_vendor (vendor_table w) (mg_email req) = None ->
  lower (default "" (mg_button req)) = "unsubscribe from checked" ->
  manage req w = (Raise (AttributeError "NoneType" "categories"), w).
Proof.
  intros Hv Hf Hb. unfold manage, Vendor_first_by_email. rewrite Hv.
  unfold_monad. rewrite Hf, Hb. reflexivity.
Qed.

Lemma manage_unknown_email_unsubscribe_raises_witness :
  manage (mkManageRequest true [] "nobody@x.com" (Some "Unsubscribe from checked") [2])
         Sample.world
  = (Raise (AttributeError "NoneType" "categories"), Sample.world).
Proof.
  apply manage_unknown_email_unsubscribe_raises; reflexivity.
Defined.

(** Look-ups return a row that satisfies the search key. *)
Lemma lookup_category_id tbl i c :
  lookup_category tbl i = Some c -> cat_id c = i.
Proof.
  unfold lookup_category. intros H. apply find_some in H as [_ H].
  by apply Z.eqb_eq in H.
Qed.

Lemma lookup_category_of_row tbl c :
  In c tbl -> is_Some (lookup_category tbl (cat_id c)).
Proof.
  unfold lookup_category. intros Hin.
  destruct (List.find _ tbl) eqn:Hf; [eauto|].
  eapply find_none in Hf; [|exact Hin]. cbn in Hf.
  rewrite Z.eqb_refl in Hf. discriminate.
Qed.

Lemma Category_get_all_run ids w :
  Category_get_all ids w = (Ok (map (lookup_category (category_table w)) ids), w).
Proof.
  induction ids as [|i ids IH]; [reflexivity|].
  cbn. unfold bind. rewrite IH. reflexivity.
Qed.

(** After the commit the first row under the email is the saved one. *)
Lemma lookup_vendor_replace tbl e v v' :
  lookup_vendor tbl e = Some v ->
  vendor_id v' = vendor_id v -> email v' = email v ->
  lookup_vendor (replace_vendor v' tbl) e = Some v'.
Proof.
  unfold lookup_vendor, replace_vendor. intros Hf Hid He.
  induction tbl as [|r tbl IH]; [discriminate|].
  cbn in *. destruct (Z.eqb (vendor_id r) (vendor_id v')) eqn:Hr.
  - destruct (String.eqb (email r) e) eqn:Hre.
    + injection Hf as ->. by rewrite He, Hre.
    + destruct (String.eqb (email v') e) eqn:Hve; [reflexivity|]. auto.
  - destruct (String.eqb (email r) e) eqn:Hre; [|auto].
    injection Hf as ->. rewrite Hid, Z.eqb_refl in Hr. discriminate.
Qed.

Lemma replace_vendor_idem v tbl :
  replace_vendor v (replace_vendor v tbl) = replace_vendor v tbl.
Proof.
  unfold replace_vendor. rewrite map_map. apply map_ext. intros r.
  destruct (Z.eqb (vendor_id r) (vendor_id v)) eqn:Hr;
    [by rewrite Z.eqb_refl | by rewrite Hr].
Qed.

(** The identifiers of the rows fetched for a list of resolvable keys. *)
Lemma omap_lookup_category_ids tbl ids :
  Forall (fun i => is_Some (lookup_category tbl i)) ids ->
  forallb (fun c : option Category => match c with Some _ => true | None => false end)
          (map (lookup_category tbl) ids) = true
  /\ map cat_id (omap id (map (lookup_category tbl) ids)) = ids.
Proof.
  induction 1 as [|i ids [c Hc] _ [IH1 IH2]]; [done|].
  cbn. rewrite Hc. cbn. split; [exact IH1|].
  f_equal; [by eapply lookup_category_id | exact IH2].
Qed.

(** One run of the unsubscribe branch, spelled out. *)
Lemma manage_unsubscribe_run req w v :
  mg_valid req = true ->
  lower (default "" (mg_button req)) = "unsubscribe from checked" ->
  lookup_vendor (vendor_table w) (mg_email req) = Some v ->
  (forall c, In c (categories v) ->
             is_Some (lookup_category (category_table w) (cat_id c))) ->
  manage req w
  = (Ok (RenderManage
           (mg_errors req)
           (map (fun s => (cat_id s, subcategory s))
                (categories (unsubscribed (category_table w) v (mg_subscriptions req))))),
     set_flashes (fun l => (l ++ [("Preferences updated!", "alert-success")])%list)
       (set_vendors
          (replace_vendor (unsubscribed (category_table w) v (mg_subscriptions req))) w))
  /\ map cat_id (categories (unsubscribed (category_table w) v (mg_subscriptions req)))
     = elements (subscription_ids v ∖ list_to_set (mg_subscriptions req)).
Proof.
  intros Hv Hb Hf Href.
  set (ids := elements (subscription_ids v ∖ list_to_set (mg_subscriptions req))).
  assert (Hall : Forall (fun i => is_Some (lookup_category (category_table w) i)) ids).
  { apply Forall_forall. intros i Hi. unfold ids in Hi.
    apply elem_of_elements in Hi.
    apply elem_of_difference in Hi as [Hi _].
    unfold subscription_ids in Hi. apply elem_of_list_to_set in Hi.
    apply list_elem_of_In in Hi.
    apply in_map_iff in Hi as (c & <- & Hc). by apply Href. }
  destruct (omap_lookup_category_ids _ _ Hall) as [Hsome Hids].
  split; [|exact Hids].
  unfold manage, Vendor_first_by_email. rewrite Hv.
  unfold bind at 1. unfold gets at 1. rewrite Hf, Hb, String.eqb_refl.
  unfold get_categories. unfold bind at 1 2. unfold ret at 1.
  fold (subscription_ids v). fold ids.
  unfold bind at 1. rewrite Category_get_all_run.
  unfold assign_categories. rewrite Hsome. reflexivity.
Qed.

(** Unsubscribing twice with the same removals commits the same row. *)
Lemma unsubscribed_twice tbl v removals :
  (forall c, In c (categories v) -> is_Some (lookup_category tbl (cat_id c))) ->
  subscription_ids (unsubscribed tbl v removals)
  = subscription_ids v ∖ list_to_set removals
  /\ unsubscribed tbl (unsubscribed tbl v removals) removals
     = unsubscribed tbl v removals
  /\ (forall c, In c (categories (unsubscribed tbl v removals)) ->
                is_Some (lookup_category tbl (cat_id c))).
Proof.
  intros Href.
  set (ids := elements (subscription_ids v ∖ list_to_set removals)).
  assert (Hall : Forall (fun i => is_Some (lookup_category tbl i)) ids).
  { apply Forall_forall. intros i Hi. unfold ids in Hi.
    apply elem_of_elements in Hi.
    apply elem_of_difference in Hi as [Hi _].
    unfold subscription_ids in Hi. apply elem_of_list_to_set in Hi.
    apply list_elem_of_In in Hi.
    apply in_map_iff in Hi as (c & <- & Hc). by apply Href. }
  destruct (omap_lookup_category_ids _ _ Hall) as [_ Hids].
  assert (Hset : subscription_ids (unsubscribed tbl v removals)
                 = subscription_ids v ∖ list_to_set removals).
  { unfold subscription_ids at 1. unfold unsubscribed. cbn [categories].
    fold ids. rewrite Hids. apply list_to_set_elements_L. }
  split; [exact Hset|]. split.
  - unfold unsubscribed at 1. rewrite Hset.
    rewrite difference_twice_L. reflexivity.
  - intros c Hc. unfold unsubscribed in Hc. cbn [categories] in Hc.
    rewrite <- list_elem_of_In in Hc.
    apply list_elem_of_omap in Hc as (oc & Hoc & Hc).
    cbn in Hc. subst oc. rewrite list_elem_of_In in Hoc.
    apply in_map_iff in Hoc as (i & Hi & _).
    rewrite (lookup_category_id _ _ _ Hi). eauto.
Qed.

(** C4: unsubscribing is a set difference on the vendor's subscription
    identifiers: with [B] the identifiers held before and [R] the requested
    removals, the committed row holds exactly [B ∖ R]; sending the same
    request again leaves the vendor table as it is. *)
Theorem manage_unsubscribe_set_difference req w v :
  mg_valid req = true ->
  lower (default "" (mg_button req)) = "unsubscribe from checked" ->
  lookup_vendor (vendor_table w) (mg_email req) = Some v ->
  (forall c, In c (categories v) ->
             is_Some (lookup_category (category_table w) (cat_id c))) ->
  exists r w1 v1,
    manage req w = (Ok r, w1)
    /\ lookup_vendor (vendor_table w1) (mg_email req) = Some v1
    /\ subscription_ids v1 = subscription_ids v ∖ list_to_set (mg_subscriptions req)
    /\ exists r2 w2,
         manage req w1 = (Ok r2, w2) /\ vendor_table w2 = vendor_table w1.
Proof.
  intros Hv Hb Hf Href.
  destruct (manage_unsubscribe_run req w v Hv Hb Hf Href) as [Hrun _].
  destruct (unsubscribed_twice (category_table w) v (mg_subscriptions req) Href)
    as (Hset & Htwice & Href1).
  set (v1 := unsubscribed (category_table w) v (mg_subscriptions req)) in *.
  assert (Hf1 : lookup_vendor (replace_vendor v1 (vendor_table w)) (mg_email req) = Some v1)
    by (by eapply lookup_vendor_replace).
  eexists _, _, v1. split; [exact Hrun|]. split; [exact Hf1|]. split; [exact Hset|].
  match type of Hrun with _ = (_, ?x) => set (w1 := x) in * end.
  destruct (manage_unsubscribe_run req w1 v1 Hv Hb Hf1 Href1) as [Hrun2 _].
  eexists _, _. split; [exact Hrun2|].
  change (replace_vendor (unsubscribed (category_table w) v1 (mg_subscriptions req))
                         (replace_vendor v1 (vendor_table w))
          = replace_vendor v1 (vendor_table w)).
  rewrite Htwice. apply replace_vendor_idem.
Qed.

Lemma manage_unsubscribe_set_difference_witness :
  exists r w1 v1,
    manage (mkManageRequest true [] "a@x.com" (Some "Unsubscribe from checked") [2])
           Sample.world = (Ok r, w1)
    /\ lookup_vendor (vendor_table w1) "a@x.com" = Some v1
    /\ subscription_ids v1 = subscription_ids Sample.vendor_a ∖ list_to_set [2]
    /\ exists r2 w2,
         manage (mkManageRequest true [] "a@x.com" (Some "Unsubscribe from checked") [2])
                w1 = (Ok r2, w2)
         /\ vendor_table w2 = vendor_table w1.
Proof.
  apply (manage_unsubscribe_set_difference
           (mkManageRequest true [] "a@x.com" (Some "Unsubscribe from checked") [2])
           Sample.world Sample.vendor_a); try reflexivity.
  intros c Hc. cbn in Hc. destruct Hc as [<-|[<-|[]]]; cbn; eauto.
Defined.

(** The scenario of the specification: [{2, 3}] minus [{2}] leaves [{3}]. *)
Lemma manage_unsubscribe_scenario :
  manage (mkManageRequest true [] "a@x.com" (Some "Unsubscribe from checked") [2])
         Sample.world
  = (Ok (RenderManage [] [(3, "Paper")]),
     set_flashes (fun _ => [("Preferences updated!", "alert-success")])
       (set_vendors (fun _ => [mkVendor 1 "a@x.com" "A Inc" [Sample.cat3]]) Sample.world)).
Proof. vm_compute. reflexivity. Qed.

(** ** Vendor signup *)

(** One turn of the loop over the submitted fields. *)
Lemma collect_subcategories_cons k v rest subcats cats w :
  collect_subcategories ((k, v) :: rest) subcats cats w
  = if negb (String.prefix "subcategories-" k) then
      collect_subcategories rest subcats cats w
    else
      match nth_error (split_on "-" k) 1 with
      | None => (Raise IndexError, w)
      | Some part =>
          match parse_int part with
          | None => (Raise (ValueError part), w)
          | Some i =>
              if String.eqb v "on" && negb (bool_decide (i ∈ subcats)) then
                match lookup_category (category_table w) i with
                | None => (Raise (ValidationError "None is not a valid choice!"), w)
                | Some c =>
                    collect_subcategories rest ({[i]} ∪ subcats) (cats ++ [c])%list w
                end
              else collect_subcategories rest subcats cats w
          end
      end.
Proof.
  cbn [collect_subcategories].
  destruct (negb (String.prefix "subcategories-" k)); [reflexivity|].
  unfold py_index, py_int, Category_get. unfold bind at 1.
  destruct (nth_error (split_on "-" k) 1) as [part|]; [|reflexivity].
  unfold ret at 1. unfold bind at 1.
  destruct (parse_int part) as [i|]; [|reflexivity].
  unfold ret at 1.
  destruct (String.eqb v "on" && negb (bool_decide (i ∈ subcats))); [|reflexivity].
  unfold bind at 1, gets.
  destruct (lookup_category (category_table w) i); reflexivity.
Qed.

(** The loop only reads the store. *)
Lemma collect_subcategories_world fields :
  forall subcats cats w, (collect_subcategories fields subcats cats w).2 = w.
Proof.
  induction fields as [|[k v] rest IH]; intros subcats cats w; [reflexivity|].
  rewrite collect_subcategories_cons.
  repeat (case_match; try reflexivity; try apply IH).
Qed.

(** Whatever identifier fails to resolve, the message is the same text. *)
Lemma collect_subcategories_message fields :
  forall subcats cats w m w',
    collect_subcategories fields subcats cats w = (Raise (ValidationError m), w') ->
    m = "None is not a valid choice!".
Proof.
  induction fields as [|[k v] rest IH]; intros subcats cats w m w' H;
    [discriminate|].
  rewrite collect_subcategories_cons in H.
  repeat (case_match; try discriminate; eauto).
  by injection H as <- _.
Qed.

(** The loop invariant: [subcats] is the set of the identifiers of [cats],
    which are pairwise distinct; every checked field seen so far is in. *)
Lemma collect_subcategories_invariant fields :
  forall subcats cats w cats' w',
    collect_subcategories fields subcats cats w = (Ok cats', w') ->
    subcats = list_to_set (map cat_id cats) ->
    NoDup (map cat_id cats) ->
    NoDup (map cat_id cats')
    /\ (forall i, In i (map cat_id cats) -> In i (map cat_id cats'))
    /\ (forall k v i, In (k, v) fields -> checked_id k v = Some i ->
                      In i (map cat_id cats')).
Proof.
  induction fields as [|[k v] rest IH]; intros subcats cats w cats' w' H Hset Hnd.
  { injection H as <- _. repeat split; [exact Hnd | auto | intros ? ? ? []]. }
  rewrite collect_subcategories_cons in H.
  destruct (String.prefix "subcategories-" k) eqn:Hp; cbn [negb] in H.
  2:{ destruct (IH _ _ _ _ _ H Hset Hnd) as (IH1 & IH2 & IH3).
      repeat split; [exact IH1 | exact IH2 |].
      intros k0 v0 i [Heq|Hin] Hc; [|eauto].
      injection Heq as <- <-. unfold checked_id in Hc. rewrite Hp in Hc. discriminate. }
  destruct (nth_error (split_on "-" k) 1) as [part|] eqn:Hn; [|discriminate].
  destruct (parse_int part) as [i|] eqn:Hi; [|discriminate].
  assert (Hck : forall i', checked_id k v = Some i' -> String.eqb v "on" = true /\ i' = i).
  { unfold checked_id. rewrite Hp, Hn. cbn. rewrite Hi.
    destruct (String.eqb v "on"); [|discriminate]. intros i' [= <-]. auto. }
  destruct (String.eqb v "on") eqn:Hon; cbn [andb] in H.
  2:{ destruct (IH _ _ _ _ _ H Hset Hnd) as (IH1 & IH2 & IH3).
      repeat split; [exact IH1 | exact IH2 |].
      intros k0 v0 i0 [Heq|Hin] Hc; [|eauto].
      injection Heq as <- <-. apply Hck in Hc as [? _]. discriminate. }
  destruct (bool_decide (i ∈ subcats)) eqn:Hmem; cbn [negb] in H.
  { destruct (IH _ _ _ _ _ H Hset Hnd) as (IH1 & IH2 & IH3).
    repeat split; [exact IH1 | exact IH2 |].
    intros k0 v0 i0 [Heq|Hin] Hc; [|eauto].
    injection Heq as <- <-. apply Hck in Hc as [_ ->].
    apply IH2. apply bool_decide_eq_true in Hmem. subst subcats.
    apply list_elem_of_In. by apply elem_of_list_to_set in Hmem. }
  destruct (lookup_category (category_table w) i) as [c|] eqn:Hc; [|discriminate].
  apply lookup_category_id in Hc.
  apply bool_decide_eq_false in Hmem.
  assert (Hfresh : ~ In i (map cat_id cats)).
  { intros Hin. apply Hmem. subst subcats.
    apply elem_of_list_to_set. by apply list_elem_of_In. }
  assert (Hmap : map cat_id (cats ++ [c]) = (map cat_id cats ++ [i])%list)
    by (by rewrite map_app; cbn; rewrite Hc).
  destruct (IH _ _ _ _ _ H) as (IH1 & IH2 & IH3).
  - rewrite Hmap, list_to_set_app_L. subst subcats. cbn.
    rewrite union_empty_r_L. apply union_comm_L.
  - rewrite Hmap. apply NoDup_app. repeat split; [exact Hnd | | apply NoDup_singleton].
    intros x Hx Hx'. apply list_elem_of_singleton in Hx'. subst x.
    apply Hfresh. by apply list_elem_of_In.
  - repeat split; [exact IH1 | |].
    + intros x Hx. apply IH2. rewrite Hmap. apply in_or_app. by left.
    + intros k0 v0 i0 [Heq|Hin] Hck0; [|eauto].
      injection Heq as <- <-. apply Hck in Hck0 as [_ ->].
      apply IH2. rewrite Hmap. apply in_or_app. right. by left.
Qed.

Lemma lookup_vendor_app_new tbl v :
  lookup_vendor tbl (email v) = None ->
  lookup_vendor (tbl ++ [v]) (email v) = Some v.
Proof.
  unfold lookup_vendor. intros Hf. induction tbl as [|r tbl IH]; cbn in *.
  - by rewrite String.eqb_refl.
  - destruct (String.eqb (email r) (email v)); [discriminate | auto].
Qed.

(** C3 (negative part): the validation error raised for a checked
    subcategory that does not resolve never names the identifier: the text
    is built from the failed look-up's result, so it always reads
    ['None is not a valid choice!']. *)
Theorem signup_validation_message ext req w m w' :
  signup ext req w = (Raise (ValidationError m), w') ->
  m = "None is not a valid choice!".
Proof.
  unfold signup. intros H.
  destruct (su_valid req).
  - unfold bind at 1 in H. unfold Vendor_first_by_email, gets in H.
    unfold bind at 1 in H.
    destruct (collect_subcategories (su_fields req) ∅ [] w) as [[cats|e] w1] eqn:Hc.
    + unfold Vendor_update, Vendor_save, Vendor_create, flash in H. unfold_monad.
      repeat (case_match; try discriminate).
    + injection H as -> _. by eapply collect_subcategories_message.
  - unfold_monad. repeat (case_match; try discriminate).
Qed.

Lemma signup_validation_message_witness :
  exists m,
    signup Sample.ext
           (mkSignupRequest true "b@x.com" "B Ltd" [("subcategories-999", "on")] None)
           Sample.world
    = (Raise (ValidationError m), Sample.world)
    /\ m = "None is not a valid choice!".
Proof.
  eexists. split; [vm_compute; reflexivity|].
  apply (signup_validation_message Sample.ext
           (mkSignupRequest true "b@x.com" "B Ltd" [("subcategories-999", "on")] None)
           Sample.world _ Sample.world).
  vm_compute. reflexivity.
Defined.

(** C7: after a successful signup the vendor stored under the submitted
    email holds every checked subcategory exactly once: the identifiers of
    its categories are pairwise distinct, and every identifier checked in
    some submitted field is among them, however many fields name it. *)
Theorem signup_categories_deduplicated ext req w r w' :
  su_valid req = true ->
  signup ext req w = (Ok r, w') ->
  exists v,
    lookup_vendor (vendor_table w') (su_email req) = Some v
    /\ NoDup (map cat_id (categories v))
    /\ (forall k val i, In (k, val) (su_fields req) -> checked_id k val = Some i ->
                        In i (map cat_id (categories v))).
Proof.
  intros Hv H. unfold signup in H. rewrite Hv in H.
  unfold bind at 1 in H. unfold Vendor_first_by_email, gets in H.
  unfold bind at 1 in H.
  destruct (collect_subcategories (su_fields req) ∅ [] w) as [[cats|e] w1] eqn:Hc;
    [|discriminate].
  pose proof (collect_subcategories_world (su_fields req) ∅ [] w) as Hw.
  rewrite Hc in Hw. cbn in Hw. subst w1.
  destruct (collect_subcategories_invariant _ _ _ _ _ _ Hc) as (Hnd & _ & Hin);
    [reflexivity | constructor |].
  destruct (lookup_vendor (vendor_table w) (su_email req)) as [v|] eqn:Hf.
  - exists (mkVendor (vendor_id v) (su_email req) (su_business_name req) cats).
    unfold Vendor_update, Vendor_save, flash in H. unfold_monad.
    injection H as _ <-. cbn. split; [|split; [exact Hnd | exact Hin]].
    eapply lookup_vendor_replace; [exact Hf | reflexivity |]. cbn.
    unfold lookup_vendor in Hf. apply find_some in Hf as [_ Hf].
    apply String.eqb_eq in Hf. by rewrite Hf.
  - set (v := mkVendor (next_id (map vendor_id (vendor_table w)))
                       (su_email req) (su_business_name req) cats).
    exists v. split; [|split; [exact Hnd | exact Hin]].
    assert (Htbl : vendor_table w' = (vendor_table w ++ [v])%list).
    { unfold Vendor_create, flash in H. unfold_monad. fold v in H.
      destruct (vendor_signup ext v cats); injection H as _ <-; reflexivity. }
    rewrite Htbl. by apply (lookup_vendor_app_new (vendor_table w) v).
Qed.

Lemma signup_categories_deduplicated_witness :
  exists r w' v,
    signup Sample.ext
           (mkSignupRequest true "b@x.com" "B Ltd"
              [("subcategories-1", "on"); ("subcategories-01", "on");
               ("subcategories-3", "on"); ("subcategories-1-x", "on");
               ("subcategories-2", "off")] None)
           Sample.world = (Ok r, w')
    /\ lookup_vendor (vendor_table w') "b@x.com" = Some v
    /\ NoDup (map cat_id (categories v))
    /\ In 1 (map cat_id (categories v)).
Proof.
  set (req := mkSignupRequest true "b@x.com" "B Ltd"
              [("subcategories-1", "on"); ("subcategories-01", "on");
               ("subcategories-3", "on"); ("subcategories-1-x", "on");
               ("subcategories-2", "off")] None).
  destruct (signup Sample.ext req Sample.world) as [[r|e] w'] eqn:Hrun;
    [|vm_compute in Hrun; discriminate].
  destruct (signup_categories_deduplicated Sample.ext req Sample.world r w' eq_refl Hrun)
    as (v & Hf & Hnd & Hin).
  exists r, w', v. repeat split; [exact Hf | exact Hnd |].
  apply (Hin "subcategories-01" "on" 1); [right; left; reflexivity | reflexivity].
Defined.

(** Three submitted fields name subcategory 1; the vendor holds it once. *)
Lemma signup_duplicates_run :
  signup Sample.ext
         (mkSignupRequest true "b@x.com" "B Ltd"
            [("subcategories-1", "on"); ("subcategories-01", "on");
             ("subcategories-3", "on"); ("subcategories-1-x", "on");
             ("subcategories-2", "off")] None)
         Sample.world
  = (Ok (Redirect "opportunities.index"),
     set_flashes
       (fun _ => [("Thank you for signing up! Check your email for more information",
                   "alert-success")])
       (set_vendors
          (fun l => (l ++ [mkVendor 2 "b@x.com" "B Ltd" [Sample.cat1; Sample.cat3]])%list)
          Sample.world)).
Proof. vm_compute. reflexivity. Qed.

(** ** Browsing and detail *)

(** What the loop of [browse] leaves in its two lists. *)
Lemma browse_loop_spec ext today opportunities :
  forall active upcoming o,
    (In o (browse_loop ext today opportunities active upcoming).1
     <-> In o active
         \/ (In o opportunities /\ truthy (is_public o) = true
             /\ is_published ext today o = true))
    /\ (In o (browse_loop ext today opportunities active upcoming).2
        <-> In o upcoming
            \/ (In o opportunities /\ truthy (is_public o) = true
                /\ is_published ext today o = false)).
Proof.
  induction opportunities as [|x rest IH]; intros active upcoming o; cbn.
  { split; (split; [auto | intros [H|[[] _]]; exact H]). }
  destruct (truthy (is_public x)) eqn:Hpub;
    [destruct (is_published ext today x) eqn:Hp|];
    destruct (IH active upcoming o) as [IHa IHu];
    destruct (IH (active ++ [x])%list upcoming o) as [IHa1 IHu1];
    destruct (IH active (upcoming ++ [x])%list o) as [IHa2 IHu2];
    clear IH.
  - split.
    + rewrite IHa1, in_app_iff. cbn. split.
      * intros [[H|[<-|[]]]|(H & H1 & H2)]; auto 6.
      * intros [H|([<-|H] & H1 & H2)]; auto 6.
    + rewrite IHu1. split.
      * intros [H|(H & H1 & H2)]; auto 6.
      * intros [H|([<-|H] & H1 & H2)]; [auto | congruence | auto 6].
  - split.
    + rewrite IHa2. split.
      * intros [H|(H & H1 & H2)]; auto 6.
      * intros [H|([<-|H] & H1 & H2)]; [auto | congruence | auto 6].
    + rewrite IHu2, in_app_iff. cbn. split.
      * intros [[H|[<-|[]]]|(H & H1 & H2)]; auto 6.
      * intros [H|([<-|H] & H1 & H2)]; auto 6.
  - split.
    + rewrite IHa. split.
      * intros [H|(H & H1 & H2)]; auto 6.
      * intros [H|([<-|H] & H1 & H2)]; [auto | congruence | auto 6].
    + rewrite IHu. split.
      * intros [H|(H & H1 & H2)]; auto 6.
      * intros [H|([<-|H] & H1 & H2)]; [auto | congruence | auto 6].
Qed.

(** C5: [browse] fetches the opportunities whose deadline is today or
    later and splits them: a public one inside its publication window is
    in [active], a public one outside it is in [upcoming], and nothing is in
    both lists. *)
Theorem browse_partition ext today w :
  exists opportunities active upcoming,
    browse ext today w = (Ok (RenderBrowse opportunities active upcoming), w)
    /\ opportunities = List.filter (deadline_not_passed today) (opportunity_table w)
    /\ (forall o, In o opportunities -> truthy (is_public o) = true ->
                  is_published ext today o = true -> In o active)
    /\ (forall o, In o opportunities -> truthy (is_public o) = true ->
                  is_published ext today o = false -> In o upcoming)
    /\ (forall o, ~ (In o active /\ In o upcoming)).
Proof.
  set (opps := List.filter (deadline_not_passed today) (opportunity_table w)).
  exists opps, (browse_loop ext today opps [] []).1, (browse_loop ext today opps [] []).2.
  split; [reflexivity|]. split; [reflexivity|]. repeat split.
  - intros o Hin Hpub Hp. apply (browse_loop_spec ext today opps [] [] o). auto.
  - intros o Hin Hpub Hp. apply (browse_loop_spec ext today opps [] [] o). auto.
  - intros o [Ha Hu].
    apply (browse_loop_spec ext today opps [] [] o) in Ha as [[]|(_ & _ & Ha)].
    apply (browse_loop_spec ext today opps [] [] o) in Hu as [[]|(_ & _ & Hu)].
    congruence.
Qed.

(** On the sample table at day 20: opportunity 1 is open, 2 is announced
    for later, 3 is private. *)
Lemma browse_sample_run :
  browse Sample.ext 20 Sample.world
  = (Ok (RenderBrowse
           [Sample.opp 1 true 10 30; Sample.opp 2 true 25 40; Sample.opp 3 false 5 30]
           [Sample.opp 1 true 10 30]
           [Sample.opp 2 true 25 40]),
     Sample.world).
Proof. vm_compute. reflexivity. Qed.

(** The list of all fetched rows, which [browse] also hands to the
    template under the name [opportunities], is not filtered by
    [is_public]. *)
Lemma browse_fetched_rows_unfiltered :
  exists opportunities active upcoming,
    browse Sample.ext 20 Sample.world
    = (Ok (RenderBrowse opportunities active upcoming), Sample.world)
    /\ In (Sample.opp 3 false 5 30) opportunities.
Proof.
  eexists _, _, _. split; [reflexivity|]. vm_compute. auto.
Qed.

(** C6: an opportunity that is not public is in neither collection that
    [browse] builds, whatever its publication window; and looking it up by
    its id ends exactly as looking up an id that has no row: both abort
    with the same not-found outcome and leave the store alone. *)
Theorem private_opportunity_hidden ext today w o i j :
  truthy (is_public o) = false ->
  lookup_opportunity (opportunity_table w) i = Some o ->
  lookup_opportunity (opportunity_table w) j = None ->
  (exists opportunities active upcoming,
      browse ext today w = (Ok (RenderBrowse opportunities active upcoming), w)
      /\ ~ In o active /\ ~ In o upcoming)
  /\ detail i w = (Raise NotFound, w)
  /\ detail j w = (Raise NotFound, w)
  /\ detail i w = detail j w.
Proof.
  intros Hpriv Hi Hj.
  assert (Hdi : detail i w = (Raise NotFound, w)).
  { unfold detail, Opportunity_get. unfold_monad. by rewrite Hi, Hpriv. }
  assert (Hdj : detail j w = (Raise NotFound, w)).
  { unfold detail, Opportunity_get. unfold_monad. by rewrite Hj. }
  split; [|split; [exact Hdi | split; [exact Hdj | congruence]]].
  set (opps := List.filter (deadline_not_passed today) (opportunity_table w)).
  exists opps, (browse_loop ext today opps [] []).1, (browse_loop ext today opps [] []).2.
  split; [reflexivity|].
  split; intros Hin;
    apply (browse_loop_spec ext today opps [] [] o) in Hin as [[]|(_ & Hp & _)];
    congruence.
Qed.

Lemma private_opportunity_hidden_witness :
  (exists opportunities active upcoming,
      browse Sample.ext 20 Sample.world
      = (Ok (RenderBrowse opportunities active upcoming), Sample.world)
      /\ ~ In (Sample.opp 3 false 5 30) active
      /\ ~ In (Sample.opp 3 false 5 30) upcoming)
  /\ detail 3 Sample.world = (Raise NotFound, Sample.world)
  /\ detail 4 Sample.world = (Raise NotFound, Sample.world)
  /\ detail 3 Sample.world = detail 4 Sample.world.
Proof.
  apply (private_opportunity_hidden Sample.ext 20 Sample.world
           (Sample.opp 3 false 5 30) 3 4); reflexivity.
Defined.

(** A public row is shown by [detail]. *)
Lemma detail_public_run :
  detail 1 Sample.world = (Ok (RenderDetail (Sample.opp 1 true 10 30)), Sample.world).
Proof. vm_compute. reflexivity. Qed.

(** ** Opportunity build/update *)

(** Upload routing leaves the tables and the dictionaries alone. *)
Lemma upload_document_frame cfg ext document _id w :
  let w' := (upload_document cfg ext document _id w).2 in
  heap w' = heap w /\ user_table w' = user_table w
  /\ opportunity_table w' = opportunity_table w.
Proof.
  unfold upload_document, id_or_random, get_filename, get_stream.
  destruct document; unfold_monad; cbn; auto.
  destruct _id as [i|]; [destruct (truthy_id (Some i))|]; cbn;
    destruct (String.eqb _ ""); cbn; auto;
    destruct (UPLOAD_S3 cfg); cbn; auto.
Qed.

(** With a file object in hand upload routing always returns. *)
Lemma upload_document_file_returns cfg ext f _id w :
  exists res w', upload_document cfg ext (VFile f) _id w = (Ok res, w').
Proof.
  unfold upload_document, id_or_random, get_filename, get_stream.
  unfold_monad; cbn.
  destruct _id as [i|]; [destruct (truthy_id (Some i))|]; cbn;
    destruct (String.eqb _ ""); cbn; eauto;
    destruct (UPLOAD_S3 cfg); cbn; eauto.
Qed.

(** [build_opportunity], run step by step. *)
Lemma build_opportunity_run cfg ext data opportunity w :
  build_opportunity cfg ext data opportunity w
  = match deref w data !! "contact_email" with
    | None => (Raise (KeyError "contact_email"), w)
    | Some e =>
        let d := deref w data in
        let contact := resolved_contact w data e in
        let w0 := set_heap (insert data (delete "contact_email" d)) w in
        let w1 := match lookup_user (user_table w) e with
                  | Some _ => w0
                  | None => set_users (fun l => (l ++ [contact])%list) w0
                  end in
        match upload_document cfg ext (dict_get d "document") (upload_id opportunity) w1 with
        | (Raise x, w2) => (Raise x, w2)
        | (Ok res, w2) =>
            let d' := merged d (user_id contact) res.1 res.2 in
            let w3 := set_heap (insert data d') w2 in
            match opportunity with
            | Some o =>
                let o' := mkOpportunity (opp_id o) (d' ∪ opp_attrs o) in
                (Ok o', set_opportunities (replace_opportunity o') w3)
            | None =>
                let o' := mkOpportunity (next_id (map opp_id (opportunity_table w))) d' in
                (Ok o', set_opportunities (fun l => (l ++ [o'])%list) w3)
            end
        end
    end.
Proof.
  unfold build_opportunity. unfold bind at 1. unfold dict_pop.
  unfold bind at 1. unfold gets at 1.
  destruct (deref w data !! "contact_email") as [e|] eqn:He; [|reflexivity].
  set (d := deref w data) in *.
  set (w0 := set_heap (insert data (delete "contact_email" d)) w).
  assert (Hd0 : deref w0 data = delete "contact_email" d)
    by (unfold deref, w0; cbn; by rewrite lookup_insert_eq).
  change ((modify (set_heap <[data:=delete "contact_email" d]>);;; ret e) w)
    with (Ok e, w0).
  cbv iota beta. unfold bind at 1. unfold User_first_by_email, gets at 1.
  change (user_table w0) with (user_table w).
  assert (Hget : forall k, k <> "contact_email" ->
                           dict_get (delete "contact_email" d) k = dict_get d k)
    by (intros k Hk; unfold dict_get; by rewrite lookup_delete_ne).
  set (contact := resolved_contact w data e).
  set (w1 := match lookup_user (user_table w) e with
             | Some _ => w0
             | None => set_users (fun l => (l ++ [contact])%list) w0
             end).
  assert (Hstep : (match lookup_user (user_table w) e with
                   | Some u => ret u
                   | None => dept <- dict_get_ref data "department" ;;
                             User_create e 2 dept
                   end) w0 = (Ok contact, w1)).
  { unfold w1, contact, resolved_contact.
    destruct (lookup_user (user_table w) e); [reflexivity|].
    unfold dict_get_ref, User_create. unfold_monad. cbn. rewrite Hd0.
    rewrite Hget by done. reflexivity. }
  unfold bind at 1. rewrite Hstep. clear Hstep.
  assert (Hd1 : deref w1 data = delete "contact_email" d)
    by (unfold w1; destruct (lookup_user _ _); exact Hd0).
  assert (Ho1 : opportunity_table w1 = opportunity_table w)
    by (unfold w1; destruct (lookup_user _ _); reflexivity).
  unfold bind at 1. unfold dict_get_ref at 1, gets at 1. rewrite Hd1.
  rewrite Hget by done. fold (upload_id opportunity).
  unfold bind at 1.
  pose proof (upload_document_frame cfg ext (dict_get d "document")
                (upload_id opportunity) w1) as Hframe.
  destruct (upload_document cfg ext (dict_get d "document") (upload_id opportunity) w1)
    as [[res|x] w2]; [|reflexivity].
  cbn in Hframe. destruct Hframe as (Hh & _ & Ho).
  assert (Hd2 : deref w2 data = delete "contact_email" d)
    by (unfold deref; rewrite Hh; exact Hd1).
  unfold dict_update, Opportunity_update, Opportunity_create. unfold_monad.
  cbn [fold_left fst snd]. rewrite Hd2. fold (merged d (user_id contact) res.1 res.2).
  assert (Hd3 : deref (set_heap <[data:=merged d (user_id contact) res.1 res.2]> w2) data
                = merged d (user_id contact) res.1 res.2)
    by (unfold deref; cbn; by rewrite lookup_insert_eq).
  rewrite Hd3.
  destruct opportunity; [reflexivity|].
  cbn [opportunity_table set_heap]. rewrite Ho, Ho1. reflexivity.
Qed.

(** The outcome of [build_opportunity] when the data has no contact email:
    the [pop] raises and nothing is stored. *)
Lemma build_opportunity_missing_contact_email :
  build_opportunity Sample.on_disk Sample.ext 2%positive None Sample.world
  = (Raise (KeyError "contact_email"), Sample.world).
Proof. vm_compute. reflexivity. Qed.

(** A form without a file part reaches upload routing with [None]. *)
Lemma build_opportunity_without_file :
  (build_opportunity Sample.on_disk Sample.ext 3%positive None Sample.world).1
  = Raise (AttributeError "NoneType" "filename").
Proof. vm_compute. reflexivity. Qed.

(** C8 (negative part): not every call returns the persisted opportunity.
    For data that hold a contact email but no file ([document] is [None]
    or absent, as when the form is submitted without a file part), the
    contact is resolved, and then upload routing reads [document.filename]
    on [None]: the call ends in [AttributeError], nothing is merged into
    the data (which has only lost [contact_email]) and the opportunity table
    is left as it was.  This is the slip of [upload_document] (C1) seen from
    its caller. *)
Theorem build_opportunity_without_document_raises cfg ext data opportunity w e :
  deref w data !! "contact_email" = Some e ->
  dict_get (deref w data) "document" = VNone ->
  exists w',
    build_opportunity cfg ext data opportunity w
    = (Raise (AttributeError "NoneType" "filename"), w')
    /\ opportunity_table w' = opportunity_table w
    /\ deref w' data = delete "contact_email" (deref w data).
Proof.
  intros He Hdoc. rewrite build_opportunity_run, He. cbv zeta. rewrite Hdoc.
  destruct (lookup_user (user_table w) e);
    (eexists; split; [reflexivity|]; split; [reflexivity|];
     unfold deref at 1; cbn; by rewrite lookup_insert_eq).
Qed.

Lemma build_opportunity_without_document_raises_witness :
  exists w',
    build_opportunity Sample.on_disk Sample.ext 3%positive None Sample.world
    = (Raise (AttributeError "NoneType" "filename"), w')
    /\ opportunity_table w' = opportunity_table Sample.world
    /\ deref w' 3%positive = delete "contact_email" (deref Sample.world 3%positive).
Proof.
  apply (build_opportunity_without_document_raises Sample.on_disk Sample.ext 3%positive
           None Sample.world (VStr "staff@city.gov")); vm_compute; reflexivity.
Defined.

(** X24: the contract of [build_opportunity] on the data it is meant for.
    When the data holds a contact email and a file object under
    [document], the call returns the persisted opportunity.  The contact is
    the first user with that email, or else a placeholder user created
    with role 2; [contact_id], [created_by] (always 1) and the two results
    of upload routing are among the columns of the row, which replaces the
    given opportunity's row under the same key, or is appended as a new row
    when no opportunity was given. *)
Theorem build_opportunity_contract cfg ext data opportunity w e f :
  deref w data !! "contact_email" = Some e ->
  deref w data !! "document" = Some (VFile f) ->
  exists filename filepath o w',
    build_opportunity cfg ext data opportunity w = (Ok o, w')
    /\ match lookup_user (user_table w) e with
       | Some u => resolved_contact w data e = u /\ user_table w' = user_table w
       | None =>
           user_email (resolved_contact w data e) = e
           /\ role_id (resolved_contact w data e) = 2
           /\ user_table w' = (user_table w ++ [resolved_contact w data e])%list
       end
    /\ (upload_document cfg ext (VFile f) (upload_id opportunity) w).1
       = Ok (filename, filepath)
    /\ opp_attrs o !! "contact_id" = Some (VInt (user_id (resolved_contact w data e)))
    /\ opp_attrs o !! "created_by" = Some (VInt 1)
    /\ opp_attrs o !! "document" = Some filename
    /\ opp_attrs o !! "document_href" = Some filepath
    /\ match opportunity with
       | Some old =>
           opp_id o = opp_id old
           /\ opportunity_table w' = replace_opportunity o (opportunity_table w)
       | None => opportunity_table w' = (opportunity_table w ++ [o])%list
       end.
Proof.
  intros He Hdoc. rewrite build_opportunity_run, He. cbv zeta.
  assert (Hd : dict_get (deref w data) "document" = VFile f)
    by (unfold dict_get; by rewrite Hdoc).
  rewrite Hd.
  set (contact := resolved_contact w data e).
  set (w1 := match lookup_user (user_table w) e with Some _ => _ | None => _ end).
  assert (Hu1 : user_table w1
                = match lookup_user (user_table w) e with
                  | Some _ => user_table w
                  | None => (user_table w ++ [contact])%list
                  end)
    by (unfold w1; destruct (lookup_user _ _); reflexivity).
  assert (Ho1 : opportunity_table w1 = opportunity_table w)
    by (unfold w1; destruct (lookup_user _ _); reflexivity).
  assert (Hr1 : rng w = rng w1)
    by (unfold w1; destruct (lookup_user _ _); reflexivity).
  pose proof (upload_document_value cfg ext (VFile f) (upload_id opportunity) w w1 Hr1)
    as Hval.
  pose proof (upload_document_frame cfg ext (VFile f) (upload_id opportunity) w1)
    as Hframe.
  destruct (upload_document_file_returns cfg ext f (upload_id opportunity) w1)
    as ([filename filepath] & w2 & Hup).
  rewrite Hup in *. cbn in Hframe, Hval. destruct Hframe as (_ & Hu2 & Ho2).
  exists filename, filepath.
  assert (Hattrs : forall extra : pydict,
             (merged (deref w data) (user_id contact) filename filepath ∪ extra)
               !! "contact_id" = Some (VInt (user_id contact))
             /\ (merged (deref w data) (user_id contact) filename filepath ∪ extra)
                  !! "created_by" = Some (VInt 1)
             /\ (merged (deref w data) (user_id contact) filename filepath ∪ extra)
                  !! "document" = Some filename
             /\ (merged (deref w data) (user_id contact) filename filepath ∪ extra)
                  !! "document_href" = Some filepath).
  { intros extra. unfold merged.
    repeat split; apply lookup_union_Some_l; by simplify_map_eq. }
  assert (Hcontact : match lookup_user (user_table w) e with
                     | Some u => contact = u /\ user_table w2 = user_table w
                     | None => user_email contact = e /\ role_id contact = 2
                               /\ user_table w2 = (user_table w ++ [contact])%list
                     end).
  { rewrite Hu2, Hu1. unfold contact, resolved_contact.
    destruct (lookup_user (user_table w) e); auto. }
  destruct opportunity as [old|]; cbn [fst snd].
  - eexists _, _. split; [reflexivity|]. split; [exact Hcontact|].
    split; [exact Hval|]. cbn [opp_attrs opp_id].
    destruct (Hattrs (opp_attrs old)) as (H1 & H2 & H3 & H4).
    repeat split; try assumption.
    cbn. by rewrite Ho2, Ho1.
  - eexists _, _. split; [reflexivity|]. split; [exact Hcontact|].
    split; [exact Hval|]. cbn [opp_attrs opp_id].
    destruct (Hattrs ∅) as (H1 & H2 & H3 & H4).
    rewrite (right_id_L ∅ (∪)) in H1, H2, H3, H4.
    repeat split; try assumption.
    cbn. by rewrite Ho2, Ho1.
Qed.

(** A new opportunity for a contact nobody has entered before: user 2 is
    created with role 2 and the row is appended. *)
Lemma build_opportunity_contract_witness :
  exists filename filepath o w',
    build_opportunity Sample.on_disk Sample.ext 1%positive None Sample.world = (Ok o, w')
    /\ user_table w'
       = [Sample.staff; mkUser 2 (VStr "new@city.gov") 2 (VStr "Public Works")]
    /\ filename = VStr "scope.docx"
    /\ filepath = VStr "/var/uploads/scope.docx"
    /\ opp_attrs o !! "contact_id" = Some (VInt 2)
    /\ opp_attrs o !! "created_by" = Some (VInt 1)
    /\ opp_attrs o !! "document" = Some filename
    /\ opp_attrs o !! "document_href" = Some filepath
    /\ opportunity_table w' = (opportunity_table Sample.world ++ [o])%list.
Proof.
  destruct (build_opportunity_contract Sample.on_disk Sample.ext 1%positive None
              Sample.world (VStr "new@city.gov") Sample.report eq_refl eq_refl)
    as (filename & filepath & o & w' & Hrun & Hc & Hup & H1 & H2 & H3 & H4 & Htbl).
  exists filename, filepath, o, w'.
  vm_compute in Hup. injection Hup as <- <-.
  cbn in Hc. destruct Hc as (_ & _ & Hc).
  repeat split; assumption.
Defined.

(** An edit of opportunity 2 by a known contact: the row keeps its key and
    its other columns, and no user is created. *)
Lemma build_opportunity_edit_run :
  exists o w',
    build_opportunity Sample.on_s3 Sample.ext 3%positive
                      (Some (Sample.opp 2 true 25 40))
                      (set_heap (insert 3%positive
                                   (<["document" := VFile Sample.report]>
                                      Sample.no_file_data)) Sample.world)
    = (Ok o, w')
    /\ opp_id o = 2
    /\ opp_attrs o !! "contact_id" = Some (VInt 1)
    /\ opp_attrs o !! "document" = Some (VStr "opportunity-2.pdf")
    /\ opp_attrs o !! "planned_deadline" = Some (VDate 40)
    /\ user_table w' = [Sample.staff]
    /\ opportunity_table w'
       = [Sample.opp 1 true 10 30; o; Sample.opp 3 false 5 30].
Proof.
  eexists _, _. split; [vm_compute; reflexivity|].
  vm_compute. repeat split.
Qed.

(** C9: [build_opportunity] changes the dictionary it is given.  When it
    returns, the key [contact_email] is gone, [contact_id], [created_by],
    [document] and [document_href] hold the contact's id, 1 and the two
    results of upload routing, and every other key is as it was. *)
Theorem build_opportunity_mutates_data cfg ext data opportunity w o w' :
  build_opportunity cfg ext data opportunity w = (Ok o, w') ->
  exists e filename filepath,
    deref w data !! "contact_email" = Some e
    /\ (upload_document cfg ext (dict_get (deref w data) "document")
                        (upload_id opportunity) w).1 = Ok (filename, filepath)
    /\ deref w' data !! "contact_email" = None
    /\ deref w' data !! "contact_id" = Some (VInt (user_id (resolved_contact w data e)))
    /\ deref w' data !! "created_by" = Some (VInt 1)
    /\ deref w' data !! "document" = Some filename
    /\ deref w' data !! "document_href" = Some filepath
    /\ (forall k,
          ~ In k ["contact_email"; "contact_id"; "created_by"; "document"; "document_href"] ->
          deref w' data !! k = deref w data !! k).
Proof.
  rewrite build_opportunity_run.
  destruct (deref w data !! "contact_email") as [e|] eqn:He; [|discriminate].
  cbv zeta.
  set (contact := resolved_contact w data e).
  set (w1 := match lookup_user (user_table w) e with Some _ => _ | None => _ end).
  assert (Hr1 : rng w = rng w1)
    by (unfold w1; destruct (lookup_user _ _); reflexivity).
  pose proof (upload_document_value cfg ext (dict_get (deref w data) "document")
                (upload_id opportunity) w w1 Hr1) as Hval.
  destruct (upload_document cfg ext (dict_get (deref w data) "document")
              (upload_id opportunity) w1) as [[[filename filepath]|x] w2];
    [|discriminate].
  cbn [fst snd] in *. intros Hrun.
  exists e, filename, filepath. split; [reflexivity|]. split; [exact Hval|].
  assert (Hd : deref w' data
               = merged (deref w data) (user_id contact) filename filepath).
  { destruct opportunity; injection Hrun as _ <-;
      unfold deref at 1; cbn; by rewrite lookup_insert_eq. }
  rewrite Hd. unfold merged.
  repeat split; try (by simplify_map_eq).
  intros k Hk. cbn in Hk.
  rewrite !lookup_insert_ne, lookup_delete_ne; [reflexivity | | | | |];
    intros <-; apply Hk; auto 6.
Qed.

Lemma build_opportunity_mutates_data_witness :
  exists o w',
    build_opportunity Sample.on_disk Sample.ext 1%positive None Sample.world = (Ok o, w')
    /\ deref w' 1%positive !! "contact_email" = None
    /\ deref w' 1%positive !! "contact_id" = Some (VInt 2)
    /\ deref w' 1%positive !! "created_by" = Some (VInt 1)
    /\ deref w' 1%positive !! "document" = Some (VStr "scope.docx")
    /\ deref w' 1%positive !! "document_href" = Some (VStr "/var/uploads/scope.docx")
    /\ deref w' 1%positive !! "title" = Some (VStr "Road salt")
    /\ deref w' 1%positive !! "department" = Some (VStr "Public Works").
Proof.
  destruct (build_opportunity Sample.on_disk Sample.ext 1%positive None Sample.world)
    as [[o|x] w'] eqn:Hrun; [|vm_compute in Hrun; discriminate].
  destruct (build_opportunity_mutates_data _ _ _ _ _ _ _ Hrun)
    as (e & filename & filepath & He & Hup & H0 & H1 & H2 & H3 & H4 & Hrest).
  exists o, w'. split; [reflexivity|].
  vm_compute in He. injection He as <-.
  vm_compute in Hup. injection Hup as <- <-.
  repeat split; try assumption.
  - rewrite Hrest; [reflexivity|]. cbn. intros [H|[H|[H|[H|[H|[]]]]]]; discriminate.
  - rewrite Hrest; [reflexivity|]. cbn. intros [H|[H|[H|[H|[H|[]]]]]]; discriminate.
Defined.

(** * Further properties of the handlers *)

(** ** Browsing *)

Lemma browse_loop_filter ext today opportunities :
  forall active upcoming,
    browse_loop ext today opportunities active upcoming
    = ((active ++ List.filter (fun o => truthy (is_public o)
                                         && is_published ext today o) opportunities)%list,
       (upcoming ++ List.filter (fun o => truthy (is_public o)
                                           && negb (is_published ext today o))
                                opportunities)%list).
Proof.
  induction opportunities as [|x rest IH]; intros active upcoming; cbn.
  { by rewrite !app_nil_r. }
  destruct (truthy (is_public x)); [destruct (is_published ext today x)|]; cbn;
    rewrite IH, <- ?app_assoc; reflexivity.
Qed.

(** X3: the two lists of [browse] keep the order in which the rows were
    fetched: [active] is the fetched list restricted to the public rows
    inside their window, [upcoming] the fetched list restricted to the
    public rows outside it, and rows whose deadline has passed (or is not
    set) are not fetched at all. *)
Theorem browse_keeps_fetch_order ext today w :
  let fetched := List.filter (deadline_not_passed today) (opportunity_table w) in
  browse ext today w
  = (Ok (RenderBrowse
           fetched
           (List.filter (fun o => truthy (is_public o) && is_published ext today o)
                        fetched)
           (List.filter (fun o => truthy (is_public o)
                                  && negb (is_published ext today o)) fetched)),
     w).
Proof.
  intros fetched. unfold browse. unfold_monad. fold fetched.
  by rewrite browse_loop_filter.
Qed.

Lemma lookup_opportunity_of_row tbl o :
  NoDup (map opp_id tbl) -> In o tbl -> lookup_opportunity tbl (opp_id o) = Some o.
Proof.
  unfold lookup_opportunity. induction tbl as [|r tbl IH]; intros Hnd Hin; [done|].
  cbn in *. apply NoDup_cons in Hnd as [Hr Hnd].
  destruct (Z.eqb (opp_id r) (opp_id o)) eqn:He.
  - destruct Hin as [->|Hin]; [reflexivity|].
    apply Z.eqb_eq in He. exfalso. apply Hr. rewrite He.
    apply list_elem_of_In, in_map. exact Hin.
  - destruct Hin as [->|Hin]; [by rewrite Z.eqb_refl in He | auto].
Qed.

(** X4: when the primary keys of the opportunity table are distinct, every
    opportunity that [browse] lists, as active or as upcoming, can be
    opened: [detail] on its id renders that very row. *)
Theorem browse_rows_open_in_detail ext today w fetched active upcoming o :
  NoDup (map opp_id (opportunity_table w)) ->
  browse ext today w = (Ok (RenderBrowse fetched active upcoming), w) ->
  In o active \/ In o upcoming ->
  detail (opp_id o) w = (Ok (RenderDetail o), w).
Proof.
  intros Hnd Hrun Hin. unfold browse in Hrun. unfold_monad.
  rewrite browse_loop_filter in Hrun. injection Hrun as <- <- <-.
  assert (Ho : In o (opportunity_table w) /\ truthy (is_public o) = true).
  { destruct Hin as [Hin|Hin]; apply filter_In in Hin as [Hin Hp];
      apply filter_In in Hin as [Hin _]; apply andb_true_iff in Hp as [Hp _]; auto. }
  destruct Ho as [Ho Hp].
  unfold detail, Opportunity_get. unfold_monad.
  by rewrite (lookup_opportunity_of_row _ _ Hnd Ho), Hp.
Qed.

Lemma browse_rows_open_in_detail_witness :
  detail 2 Sample.world = (Ok (RenderDetail (Sample.opp 2 true 25 40)), Sample.world).
Proof.
  apply (browse_rows_open_in_detail Sample.ext 20 Sample.world
           [Sample.opp 1 true 10 30; Sample.opp 2 true 25 40; Sample.opp 3 false 5 30]
           [Sample.opp 1 true 10 30] [Sample.opp 2 true 25 40]
           (Sample.opp 2 true 25 40)).
  - apply (bool_decide_unpack _). reflexivity.
  - vm_compute. reflexivity.
  - right. left. reflexivity.
Defined.

(** ** Subscription management *)

(** X5: [manage] writes to the store on one path only.  If the form does
    not validate, or the button text is an ASCII text other than
    'unsubscribe from checked' in any letter case, or no vendor has the
    email, the whole store is left as it was (also when the handler
    raises). *)
Theorem manage_writes_only_on_unsubscribe req w :
  mg_valid req = false
  \/ (is_ascii_text (default "" (mg_button req)) = true
      /\ String.eqb (lower (default "" (mg_button req))) "unsubscribe from checked"
         = false)
  \/ lookup_vendor (vendor_table w) (mg_email req) = None ->
  (manage req w).2 = w.
Proof.
  unfold manage, Vendor_first_by_email. intros H.
  destruct (mg_valid req); [|reflexivity].
  unfold_monad.
  destruct (String.eqb (lower (default "" (mg_button req))) "unsubscribe from checked").
  - destruct H as [H|[[_ H]|H]]; try discriminate. rewrite H. reflexivity.
  - destruct (lookup_vendor (vendor_table w) (mg_email req)); reflexivity.
Qed.

Lemma manage_writes_only_on_unsubscribe_witness :
  (manage (mkManageRequest true [] "a@x.com" (Some "Show my subscriptions") [2; 3])
          Sample.world).2 = Sample.world.
Proof.
  apply manage_writes_only_on_unsubscribe. right. left. split; reflexivity.
Defined.

(** X6: an unsubscribe changes one thing: the category list of the
    vendor's row.  The row keeps its key, email and business name, the
    rows of other vendors and the other tables are untouched, the kept
    categories are rows of the Category table, the choices of the rendered
    form are exactly the categories now stored, and one flash message
    'Preferences updated!' is added. *)
Theorem manage_unsubscribe_changes_one_row req w v :
  mg_valid req = true ->
  lower (default "" (mg_button req)) = "unsubscribe from checked" ->
  lookup_vendor (vendor_table w) (mg_email req) = Some v ->
  (forall c, In c (categories v) ->
             is_Some (lookup_category (category_table w) (cat_id c))) ->
  exists v1 w1,
    manage req w
    = (Ok (RenderManage (mg_errors req)
                        (map (fun s => (cat_id s, subcategory s)) (categories v1))), w1)
    /\ vendor_id v1 = vendor_id v /\ email v1 = email v
    /\ business_name v1 = business_name v
    /\ (forall c, In c (categories v1) ->
                  lookup_category (category_table w) (cat_id c) = Some c)
    /\ vendor_table w1
       = map (fun r => if Z.eqb (vendor_id r) (vendor_id v) then v1 else r)
             (vendor_table w)
    /\ category_table w1 = category_table w
    /\ user_table w1 = user_table w
    /\ opportunity_table w1 = opportunity_table w
    /\ flashes w1 = (flashes w ++ [("Preferences updated!", "alert-success")])%list.
Proof.
  intros Hv Hb Hf Href.
  destruct (manage_unsubscribe_run req w v Hv Hb Hf Href) as [Hrun _].
  eexists _, _. split; [exact Hrun|].
  repeat split.
  intros c Hc. unfold unsubscribed in Hc. cbn [categories] in Hc.
  rewrite <- list_elem_of_In in Hc.
  apply list_elem_of_omap in Hc as (oc & Hoc & Hc). cbn in Hc. subst oc.
  rewrite list_elem_of_In in Hoc. apply in_map_iff in Hoc as (i & Hi & _).
  by rewrite (lookup_category_id _ _ _ Hi).
Qed.

Lemma manage_unsubscribe_changes_one_row_witness :
  exists v1 w1,
    manage (mkManageRequest true [] "a@x.com" (Some "UNSUBSCRIBE FROM CHECKED") [3; 9])
           Sample.world
    = (Ok (RenderManage [] (map (fun s => (cat_id s, subcategory s)) (categories v1))), w1)
    /\ vendor_id v1 = 1 /\ email v1 = "a@x.com" /\ business_name v1 = "A Inc"
    /\ vendor_table w1 = [v1]
    /\ flashes w1 = [("Preferences updated!", "alert-success")].
Proof.
  destruct (manage_unsubscribe_changes_one_row
              (mkManageRequest true [] "a@x.com" (Some "UNSUBSCRIBE FROM CHECKED") [3; 9])
              Sample.world Sample.vendor_a eq_refl eq_refl eq_refl)
    as (v1 & w1 & Hrun & Hid & He & Hb & _ & Ht & _ & _ & _ & Hfl).
  { intros c Hc. cbn in Hc. destruct Hc as [<-|[<-|[]]]; cbn; eauto. }
  exists v1, w1. repeat split; assumption.
Defined.

(** ** Vendor signup *)

(** Every category the loop collects was fetched for a checked field. *)
Lemma collect_subcategories_origin fields :
  forall subcats cats w cats' w',
    collect_subcategories fields subcats cats w = (Ok cats', w') ->
    forall c, In c cats' ->
      In c cats
      \/ (lookup_category (category_table w) (cat_id c) = Some c
          /\ exists k v, In (k, v) fields /\ checked_id k v = Some (cat_id c)).
Proof.
  induction fields as [|[k v] rest IH]; intros subcats cats w cats' w' H c Hc.
  { injection H as <- _. by left. }
  rewrite collect_subcategories_cons in H.
  assert (Hlift : forall sc, collect_subcategories rest sc cats w = (Ok cats', w') ->
                  In c cats
                  \/ (lookup_category (category_table w) (cat_id c) = Some c
                      /\ exists k0 v0, In (k0, v0) ((k, v) :: rest)
                                       /\ checked_id k0 v0 = Some (cat_id c))).
  { intros sc Hsc. destruct (IH _ _ _ _ _ Hsc c Hc) as [?|(Hl & k0 & v0 & Hin & Hck)];
      [by left|]. right. split; [exact Hl|]. exists k0, v0. split; [by right | exact Hck]. }
  destruct (String.prefix "subcategories-" k) eqn:Hp; cbn [negb] in H; [|eauto].
  destruct (nth_error (split_on "-" k) 1) as [part|] eqn:Hn; [|discriminate].
  destruct (parse_int part) as [i|] eqn:Hi; [|discriminate].
  destruct (String.eqb v "on") eqn:Hon; cbn [andb] in H; [|eauto].
  destruct (bool_decide (i ∈ subcats)); cbn [negb] in H; [eauto|].
  destruct (lookup_category (category_table w) i) as [x|] eqn:Hx; [|discriminate].
  destruct (IH _ _ _ _ _ H c Hc) as [Hin|(Hl & k0 & v0 & Hin & Hck)].
  - apply in_app_or in Hin as [Hin|[<-|[]]]; [by left|]. right.
    pose proof (lookup_category_id _ _ _ Hx) as Hid. rewrite Hid. split; [exact Hx|].
    exists k, v. split; [by left|].
    unfold checked_id. rewrite Hp, Hon, Hn. cbn. exact Hi.
  - right. split; [exact Hl|]. exists k0, v0. split; [by right | exact Hck].
Qed.

(** A field named like a subcategory but without an integer after the
    first dash stops the loop. *)
Lemma collect_subcategories_malformed fields k v :
  In (k, v) fields ->
  String.prefix "subcategories-" k = true ->
  nth_error (split_on "-" k) 1 ≫= parse_int = None ->
  forall subcats cats w,
    exists e, collect_subcategories fields subcats cats w = (Raise e, w).
Proof.
  intros Hin Hp Hbad. induction fields as [|[k0 v0] rest IH]; [destruct Hin|].
  intros subcats cats w.
  assert (Hw : forall out w', collect_subcategories ((k0, v0) :: rest) subcats cats w
                              = (out, w') -> w' = w).
  { intros out w' H. pose proof (collect_subcategories_world ((k0, v0) :: rest)
                                   subcats cats w) as Hw. by rewrite H in Hw. }
  destruct Hin as [[= -> ->]|Hin].
  - rewrite collect_subcategories_cons, Hp. cbn [negb].
    destruct (nth_error (split_on "-" k) 1) as [part|]; [|eauto].
    cbn in Hbad. rewrite Hbad. eauto.
  - specialize (IH Hin).
    destruct (collect_subcategories ((k0, v0) :: rest) subcats cats w)
      as [[cats'|e] w'] eqn:H.
    + exfalso. rewrite collect_subcategories_cons in H.
      repeat (case_match; try discriminate);
        match goal with
        | H : collect_subcategories rest ?sc ?cs w = _ |- _ =>
            destruct (IH sc cs w) as [e He]; rewrite He in H; discriminate
        end.
    + rewrite (Hw _ _ eq_refl). eauto.
Qed.

(** The part of [signup] before the page is rendered writes nothing when
    it raises. *)
Lemma signup_raise_leaves_store ext req w e w' :
  signup ext req w = (Raise e, w') -> w' = w.
Proof.
  unfold signup. intros H. destruct (su_valid req).
  - unfold bind at 1 in H. unfold Vendor_first_by_email, gets in H.
    unfold bind at 1 in H.
    pose proof (collect_subcategories_world (su_fields req) ∅ [] w) as Hw.
    destruct (collect_subcategories (su_fields req) ∅ [] w) as [[cats|x] w1].
    + unfold Vendor_update, Vendor_save, Vendor_create, flash in H. unfold_monad.
      repeat (case_match; try discriminate).
    + cbn in Hw. injection H as _ <-. exact Hw.
  - unfold_monad. repeat (case_match; try discriminate).
Qed.

(** The page is rendered only for a request that is not a valid
    submission, after the session email has been consumed. *)
Lemma signup_renders ext req w p w1 :
  signup ext req w = (Ok (RenderSignup p), w1) ->
  su_valid req = false /\ w1 = set_session_email (fun _ => None) w.
Proof.
  unfold signup. intros H. destruct (su_valid req).
  - exfalso. unfold bind at 1 in H. unfold Vendor_first_by_email, gets in H.
    unfold bind at 1 in H.
    destruct (collect_subcategories (su_fields req) ∅ [] w) as [[cats|x] w2];
      [|discriminate].
    unfold Vendor_update, Vendor_save, Vendor_create, flash in H. unfold_monad.
    destruct (lookup_vendor (vendor_table w) (su_email req)); [discriminate|].
    destruct (vendor_signup ext _ cats); discriminate.
  - split; [reflexivity|]. unfold_monad.
    destruct (su_page_email req) as [page_email|]; [|by injection H as _ <-].
    destruct (negb (String.eqb page_email "")); [discriminate|].
    by injection H as _ <-.
Qed.

(** X7: a signup request that raises has written to no table.  Either the
    exception comes from the submitted fields (an identifier that does not
    resolve, a malformed field name) and the store is exactly as before, or
    it is the [ValueError] of rendering the page without any category, and
    then the only change is that the email remembered in the session has
    been consumed.  No vendor is created or updated in either case.  The
    notification sent after a new vendor is stored is a function of
    [Collaborators] here, so it returns; X10 covers its failure. *)
Theorem signup_page_failure_writes_no_table ext req w e w' :
  signup_page ext req w = (Raise e, w') ->
  w' = w
  \/ (su_valid req = false
      /\ e = ValueError "list.remove(x): x not in list"
      /\ w' = set_session_email (fun _ => None) w).
Proof.
  unfold signup_page. unfold bind at 1.
  destruct (signup ext req w) as [[r|x] w1] eqn:Hrun.
  - destruct r; try discriminate.
    destruct (signup_renders _ _ _ _ _ Hrun) as [Hv ->].
    unfold signup_context. unfold_monad.
    destruct (py_remove "Select All" _); [discriminate|].
    intros [= <- <-]. right. auto.
  - intros [= <- <-]. left. by eapply signup_raise_leaves_store.
Qed.

Lemma signup_page_failure_writes_no_table_witness :
  exists e,
    signup_page Sample.ext
                (mkSignupRequest true "b@x.com" "B Ltd"
                   [("subcategories-1", "on"); ("subcategories-999", "on")] None)
                Sample.world
    = (Raise e, Sample.world).
Proof.
  destruct (signup_page Sample.ext
              (mkSignupRequest true "b@x.com" "B Ltd"
                 [("subcategories-1", "on"); ("subcategories-999", "on")] None)
              Sample.world) as [[r|e] w'] eqn:Hrun; [vm_compute in Hrun; discriminate|].
  exists e. f_equal.
  destruct (signup_page_failure_writes_no_table _ _ _ _ _ Hrun) as [->|(Hv & _)];
    [reflexivity | discriminate].
Defined.

(** A successful submission, spelled out: the loop's result is stored under
    the email, in the row found there or in a new row at the end. *)
Lemma signup_submit_stored ext req w r w' :
  su_valid req = true ->
  signup ext req w = (Ok r, w') ->
  exists v cats,
    lookup_vendor (vendor_table w') (su_email req) = Some v
    /\ email v = su_email req
    /\ business_name v = su_business_name req
    /\ categories v = cats
    /\ collect_subcategories (su_fields req) ∅ [] w = (Ok cats, w).
Proof.
  intros Hv H. unfold signup in H. rewrite Hv in H.
  unfold bind at 1 in H. unfold Vendor_first_by_email, gets in H.
  unfold bind at 1 in H.
  destruct (collect_subcategories (su_fields req) ∅ [] w) as [[cats|e] w1] eqn:Hc;
    [|discriminate].
  pose proof (collect_subcategories_world (su_fields req) ∅ [] w) as Hw.
  rewrite Hc in Hw. cbn in Hw. subst w1.
  destruct (lookup_vendor (vendor_table w) (su_email req)) as [v|] eqn:Hf.
  - exists (mkVendor (vendor_id v) (su_email req) (su_business_name req) cats), cats.
    unfold Vendor_update, Vendor_save, flash in H. unfold_monad.
    injection H as _ <-. cbn. repeat split.
    eapply lookup_vendor_replace; [exact Hf | reflexivity |]. cbn.
    unfold lookup_vendor in Hf. apply find_some in Hf as [_ Hf].
    apply String.eqb_eq in Hf. by rewrite Hf.
  - set (v := mkVendor (next_id (map vendor_id (vendor_table w)))
                       (su_email req) (su_business_name req) cats).
    exists v, cats. repeat split.
    assert (Htbl : vendor_table w' = (vendor_table w ++ [v])%list).
    { unfold Vendor_create, flash in H. unfold_monad. fold v in H.
      destruct (vendor_signup ext v cats); injection H as _ <-; reflexivity. }
    rewrite Htbl. by apply (lookup_vendor_app_new (vendor_table w) v).
Qed.

(** X8: a successful signup is a full replacement.  For a submission of
    ASCII texts whose subcategory fields carry letters and digits only after
    the first dash (on these [int] and [parse_int] are the same function),
    the vendor stored under the email carries the submitted email and
    business name, and its categories are exactly the rows of the Category
    table whose identifiers were checked: nothing unchecked, nothing the
    vendor held before. *)
Theorem signup_stores_exactly_the_checked ext req w r w' :
  su_valid req = true ->
  plain_submission w req = true ->
  signup ext req w = (Ok r, w') ->
  exists v,
    lookup_vendor (vendor_table w') (su_email req) = Some v
    /\ email v = su_email req
    /\ business_name v = su_business_name req
    /\ (forall c, In c (categories v) ->
                  lookup_category (category_table w) (cat_id c) = Some c)
    /\ (forall i, In i (map cat_id (categories v))
                  <-> exists k val, In (k, val) (su_fields req)
                                    /\ checked_id k val = Some i).
Proof.
  intros Hv _ H.
  destruct (signup_submit_stored ext req w r w' Hv H)
    as (v & cats & Hf & He & Hb & Hcats & Hc).
  exists v. rewrite Hcats. split; [exact Hf|]. split; [exact He|]. split; [exact Hb|].
  destruct (collect_subcategories_invariant _ _ _ _ _ _ Hc) as (_ & _ & Hin);
    [reflexivity | constructor |].
  pose proof (collect_subcategories_origin _ _ _ _ _ _ Hc) as Horigin.
  split.
  - intros c Hcin. by destruct (Horigin c Hcin) as [[]|[Hl _]].
  - intros i. split.
    + intros Hi. apply in_map_iff in Hi as (c & <- & Hcin).
      by destruct (Horigin c Hcin) as [[]|[_ Hex]].
    + intros (k & val & Hkin & Hck). eauto.
Qed.

Lemma signup_stores_exactly_the_checked_witness :
  exists v,
    lookup_vendor
      (vendor_table
         (signup Sample.ext
                 (mkSignupRequest true "a@x.com" "A Incorporated"
                    [("subcategories-1", "on"); ("csrf_token", "on");
                     ("subcategories-3", "y"); ("subcategories-2", "on")] None)
                 Sample.world).2) "a@x.com" = Some v
    /\ email v = "a@x.com"
    /\ business_name v = "A Incorporated"
    /\ (In 1 (map cat_id (categories v)) /\ In 2 (map cat_id (categories v)))
    /\ ~ In 3 (map cat_id (categories v)).
Proof.
  set (req := mkSignupRequest true "a@x.com" "A Incorporated"
                [("subcategories-1", "on"); ("csrf_token", "on");
                 ("subcategories-3", "y"); ("subcategories-2", "on")] None).
  destruct (signup Sample.ext req Sample.world) as [[r|e] w'] eqn:Hrun;
    [|vm_compute in Hrun; discriminate].
  destruct (signup_stores_exactly_the_checked Sample.ext req Sample.world r w'
              eq_refl eq_refl Hrun) as (v & Hf & He & Hb & _ & Hiff).
  exists v. split; [exact Hf|]. split; [exact He|]. split; [exact Hb|].
  split; [split|].
  - apply Hiff. exists "subcategories-1", "on". split; [cbn; auto | reflexivity].
  - apply Hiff. exists "subcategories-2", "on". split; [cbn; auto 6 | reflexivity].
  - intros H3. apply Hiff in H3 as (k & val & Hin & Hck).
    cbn in Hin. destruct Hin as [[= <- <-]|[[= <- <-]|[[= <- <-]|[[= <- <-]|[]]]]];
      vm_compute in Hck; discriminate.
Defined.

(** Both outcomes of a successful submission, with the table and the flash
    message they leave. *)
Lemma signup_submit_tables ext req w r w' :
  su_valid req = true ->
  signup ext req w = (Ok r, w') ->
  exists cats,
    collect_subcategories (su_fields req) ∅ [] w = (Ok cats, w)
    /\ r = Redirect "opportunities.index"
    /\ match lookup_vendor (vendor_table w) (su_email req) with
       | Some v0 =>
           vendor_table w'
           = replace_vendor (mkVendor (vendor_id v0) (su_email req)
                                      (su_business_name req) cats) (vendor_table w)
           /\ flashes w'
              = (flashes w
                 ++ [("You are already signed up! Your profile was updated with this new information",
                      "alert-info")])%list
       | None =>
           let v := mkVendor (next_id (map vendor_id (vendor_table w)))
                             (su_email req) (su_business_name req) cats in
           vendor_table w' = (vendor_table w ++ [v])%list
           /\ flashes w'
              = (flashes w
                 ++ [if vendor_signup ext v cats
                     then ("Thank you for signing up! Check your email for more information",
                           "alert-success")
                     else ("Uh oh, something went wrong. We are investigating.",
                           "alert-danger")])%list
       end.
Proof.
  intros Hv H. unfold signup in H. rewrite Hv in H.
  unfold bind at 1 in H. unfold Vendor_first_by_email, gets in H.
  unfold bind at 1 in H.
  destruct (collect_subcategories (su_fields req) ∅ [] w) as [[cats|e] w1] eqn:Hc;
    [|discriminate].
  pose proof (collect_subcategories_world (su_fields req) ∅ [] w) as Hw.
  rewrite Hc in Hw. cbn in Hw. subst w1. exists cats. split; [reflexivity|].
  destruct (lookup_vendor (vendor_table w) (su_email req)) as [v|].
  - unfold Vendor_update, Vendor_save, flash in H. unfold_monad.
    injection H as <- <-. auto.
  - unfold Vendor_create, flash in H. unfold_monad. cbv zeta.
    destruct (vendor_signup ext _ cats); injection H as <- <-; auto.
Qed.

Lemma next_id_fresh ids i : In i ids -> i < next_id ids.
Proof.
  unfold next_id. induction ids as [|j ids IH]; intros Hin; [destruct Hin|].
  cbn. destruct Hin as [->|Hin]; [lia|]. specialize (IH Hin). lia.
Qed.

Lemma NoDup_map_eq {A B} (f : A -> B) l x y :
  NoDup (map f l) -> In x l -> In y l -> f x = f y -> x = y.
Proof.
  induction l as [|a l IH]; intros Hnd Hx Hy Hf; [destruct Hx|].
  cbn in Hnd. apply NoDup_cons in Hnd as [Ha Hnd].
  destruct Hx as [->|Hx], Hy as [->|Hy]; auto.
  - exfalso. apply Ha. rewrite Hf. apply list_elem_of_In, in_map. exact Hy.
  - exfalso. apply Ha. rewrite <- Hf. apply list_elem_of_In, in_map. exact Hx.
Qed.

(** X9: signup keeps one row per email.  If the vendor table has distinct
    primary keys and distinct emails, it still has after a successful
    signup: a known email updates its row in place (the table keeps its
    length), an unknown one appends exactly one row. *)
Theorem signup_keeps_one_row_per_email ext req w r w' :
  su_valid req = true ->
  signup ext req w = (Ok r, w') ->
  NoDup (map vendor_id (vendor_table w)) ->
  NoDup (map email (vendor_table w)) ->
  NoDup (map vendor_id (vendor_table w'))
  /\ NoDup (map email (vendor_table w'))
  /\ length (vendor_table w')
     = match lookup_vendor (vendor_table w) (su_email req) with
       | Some _ => length (vendor_table w)
       | None => S (length (vendor_table w))
       end.
Proof.
  intros Hv H Hids Hemails.
  destruct (signup_submit_tables ext req w r w' Hv H) as (cats & _ & _ & Ht).
  destruct (lookup_vendor (vendor_table w) (su_email req)) as [v0|] eqn:Hf.
  - destruct Ht as [Ht _]. rewrite Ht. unfold replace_vendor.
    unfold lookup_vendor in Hf. apply find_some in Hf as [Hin He].
    apply String.eqb_eq in He.
    assert (Hid : map vendor_id
                    (map (fun r0 => if Z.eqb (vendor_id r0) (vendor_id v0)
                                    then mkVendor (vendor_id v0) (su_email req)
                                                  (su_business_name req) cats
                                    else r0) (vendor_table w))
                  = map vendor_id (vendor_table w)).
    { rewrite map_map. apply map_ext. intros r0.
      destruct (Z.eqb (vendor_id r0) (vendor_id v0)) eqn:E; [|reflexivity].
      apply Z.eqb_eq in E. by rewrite E. }
    assert (Hem : map email
                    (map (fun r0 => if Z.eqb (vendor_id r0) (vendor_id v0)
                                    then mkVendor (vendor_id v0) (su_email req)
                                                  (su_business_name req) cats
                                    else r0) (vendor_table w))
                  = map email (vendor_table w)).
    { rewrite map_map. apply map_ext_in. intros r0 Hr0.
      destruct (Z.eqb (vendor_id r0) (vendor_id v0)) eqn:E; [|reflexivity].
      apply Z.eqb_eq in E. cbn.
      rewrite (NoDup_map_eq vendor_id _ r0 v0 Hids Hr0 Hin E). by rewrite He. }
    cbn [vendor_id]. rewrite Hid, Hem, length_map. auto.
  - cbv zeta in Ht. destruct Ht as [Ht _]. rewrite Ht.
    rewrite !map_app, length_app. cbn. split; [|split; [|lia]].
    + apply NoDup_app. repeat split; [exact Hids | | apply NoDup_singleton].
      intros i Hi Hi'. apply list_elem_of_singleton in Hi'.
      apply list_elem_of_In, next_id_fresh in Hi. lia.
    + apply NoDup_app. repeat split; [exact Hemails | | apply NoDup_singleton].
      intros e Hi Hi'. apply list_elem_of_singleton in Hi'. subst e.
      apply list_elem_of_In, in_map_iff in Hi as (r0 & He & Hr0).
      unfold lookup_vendor in Hf. eapply find_none in Hf; [|exact Hr0].
      cbn in Hf. rewrite He, String.eqb_refl in Hf. discriminate.
Qed.

Lemma signup_keeps_one_row_per_email_witness :
  exists r w',
    signup Sample.ext
           (mkSignupRequest true "a@x.com" "A Inc" [("subcategories-1", "on")] None)
           Sample.world = (Ok r, w')
    /\ NoDup (map vendor_id (vendor_table w'))
    /\ NoDup (map email (vendor_table w'))
    /\ length (vendor_table w') = 1%nat.
Proof.
  set (req := mkSignupRequest true "a@x.com" "A Inc" [("subcategories-1", "on")] None).
  destruct (signup Sample.ext req Sample.world) as [[r|e] w1] eqn:Hrun;
    [|vm_compute in Hrun; discriminate].
  exists r, w1. split; [reflexivity|].
  apply (signup_keeps_one_row_per_email Sample.ext req Sample.world r w1 eq_refl Hrun);
    apply (bool_decide_unpack _); reflexivity.
Defined.

(** X10: a failed confirmation does not undo the signup.  For an email no
    vendor has, the new row is stored before the notification is sent;
    when the notification sender reports failure the only difference is
    the flash message, which becomes the 'alert-danger' warning. *)
Theorem signup_persists_when_notification_fails ext req w r w' :
  su_valid req = true ->
  lookup_vendor (vendor_table w) (su_email req) = None ->
  signup ext req w = (Ok r, w') ->
  exists v,
    vendor_table w' = (vendor_table w ++ [v])%list
    /\ email v = su_email req
    /\ r = Redirect "opportunities.index"
    /\ (vendor_signup ext v (categories v) = false ->
        flashes w'
        = (flashes w ++ [("Uh oh, something went wrong. We are investigating.",
                          "alert-danger")])%list)
    /\ (vendor_signup ext v (categories v) = true ->
        flashes w'
        = (flashes w
           ++ [("Thank you for signing up! Check your email for more information",
                "alert-success")])%list).
Proof.
  intros Hv Hf H.
  destruct (signup_submit_tables ext req w r w' Hv H) as (cats & _ & Hr & Ht).
  rewrite Hf in Ht. cbv zeta in Ht. destruct Ht as [Ht Hfl].
  eexists. split; [exact Ht|]. cbn [email categories].
  repeat split; [exact Hr | |]; intros Hn; rewrite Hn in Hfl; exact Hfl.
Qed.

Lemma signup_persists_when_notification_fails_witness :
  exists r w' v,
    signup (mkCollaborators (fun s => s) (fun _ _ => "q7x2mk") (fun _ => [])
                            (fun _ k => k) (fun _ _ => false) (fun _ _ => true))
           (mkSignupRequest true "c@x.com" "C Co" [("subcategories-2", "on")] None)
           Sample.world = (Ok r, w')
    /\ vendor_table w' = [Sample.vendor_a; v]
    /\ email v = "c@x.com"
    /\ flashes w' = [("Uh oh, something went wrong. We are investigating.",
                      "alert-danger")].
Proof.
  set (ext := mkCollaborators (fun s => s) (fun _ _ => "q7x2mk") (fun _ => [])
                              (fun _ k => k) (fun _ _ => false) (fun _ _ => true)).
  set (req := mkSignupRequest true "c@x.com" "C Co" [("subcategories-2", "on")] None).
  destruct (signup ext req Sample.world) as [[r|e] w'] eqn:Hrun;
    [|vm_compute in Hrun; discriminate].
  destruct (signup_persists_when_notification_fails ext req Sample.world r w'
              eq_refl eq_refl Hrun) as (v & Ht & He & _ & Hfail & _).
  exists r, w', v. split; [reflexivity|]. split; [exact Ht|]. split; [exact He|].
  apply Hfail. reflexivity.
Defined.

Lemma signup_malformed_field_run ext req w k v :
  su_valid req = true ->
  In (k, v) (su_fields req) ->
  String.prefix "subcategories-" k = true ->
  nth_error (split_on "-" k) 1 ≫= parse_int = None ->
  exists e, signup ext req w = (Raise e, w).
Proof.
  intros Hv Hin Hp Hbad.
  destruct (collect_subcategories_malformed _ _ _ Hin Hp Hbad ∅ [] w) as [e He].
  exists e. unfold signup. rewrite Hv.
  unfold bind at 1. unfold Vendor_first_by_email, gets.
  unfold bind at 1. rewrite He. reflexivity.
Qed.

(** ** Field names and identifiers *)

Lemma digit_of_pretty_N_char x :
  (x < 10)%N -> digit_of (pretty_N_char x) = Some (Z.of_N x).
Proof.
  intros Hx.
  assert (x = 0 \/ x = 1 \/ x = 2 \/ x = 3 \/ x = 4 \/ x = 5 \/ x = 6 \/ x = 7
          \/ x = 8 \/ x = 9)%N as H by lia.
  repeat (destruct H as [->|H]; [reflexivity|]). by subst.
Qed.

Lemma digits_value_pretty_N_go x :
  forall s,
    digits_value 0 (list_ascii_of_string (pretty_N_go x s))
    = digits_value (Z.of_N x) (list_ascii_of_string s).
Proof.
  induction (N.lt_wf_0 x) as [x _ IH]. intros s.
  assert (x = 0 \/ 0 < x)%N as [->|Hx] by lia.
  { by rewrite pretty_N_go_0. }
  rewrite pretty_N_go_step by done.
  rewrite IH by (by apply N.div_lt).
  cbn [list_ascii_of_string digits_value].
  rewrite digit_of_pretty_N_char by (by apply N.mod_lt).
  f_equal. rewrite (N.div_mod x 10) at 3 by done. lia.
Qed.

Lemma digits_value_digits l :
  forall acc v, digits_value acc l = Some v ->
                Forall (fun c => is_Some (digit_of c)) l.
Proof.
  induction l as [|c l IH]; intros acc v H; [constructor|].
  cbn in H. destruct (digit_of c) eqn:Hc; [|discriminate].
  constructor; [by rewrite Hc | eauto].
Qed.

Lemma digit_plain c :
  is_Some (digit_of c) ->
  is_space c = false /\ Ascii.eqb c "+" = false /\ Ascii.eqb c "-" = false.
Proof.
  unfold digit_of, is_space. intros [d Hd].
  destruct (Z.leb 48 (Z.of_nat (nat_of_ascii c)) && Z.leb (Z.of_nat (nat_of_ascii c)) 57)
    eqn:Hr; [|discriminate].
  apply andb_true_iff in Hr as [H1 H2].
  apply Z.leb_le in H1, H2.
  assert (Hn : (48 <= nat_of_ascii c <= 57)%nat) by lia.
  repeat split.
  - apply orb_false_iff. split.
    + apply andb_false_iff. right. apply Nat.leb_gt. lia.
    + apply Nat.eqb_neq. lia.
  - apply Ascii.eqb_neq. intros ->. vm_compute in H1. by apply H1.
  - apply Ascii.eqb_neq. intros ->. vm_compute in H1. by apply H1.
Qed.

Lemma lstrip_plain l :
  match l with [] => True | c :: _ => is_space c = false end -> lstrip l = l.
Proof. destruct l as [|c l]; [done|]. cbn. by intros ->. Qed.

Lemma strip_plain l :
  Forall (fun c => is_space c = false) l -> strip l = l.
Proof.
  intros H. unfold strip. rewrite (lstrip_plain l) by (by destruct H).
  rewrite lstrip_plain; [apply rev_involutive|].
  apply Forall_rev in H. by destruct H.
Qed.

(** [int(str(n)) == n]: parsing the decimal rendering gives the number. *)
Lemma parse_int_pretty (n : Z) : parse_int (pretty n) = Some n.
Proof.
  destruct n as [|p|p]; [reflexivity| |].
  - unfold pretty, pretty_Z, pretty, pretty_positive, pretty, pretty_N.
    case_decide; [done|].
    assert (Hv : digits_value 0 (list_ascii_of_string (pretty_N_go (N.pos p) ""))
                 = Some (Z.pos p))
      by (rewrite digits_value_pretty_N_go; reflexivity).
    unfold parse_int.
    remember (list_ascii_of_string (pretty_N_go (N.pos p) "")) as l eqn:Hl.
    pose proof (digits_value_digits _ _ _ Hv) as Hd.
    rewrite strip_plain
      by (eapply Forall_impl; [exact Hd | intros c Hc; by apply digit_plain]).
    destruct l as [|c l]; [discriminate|].
    apply Forall_cons in Hd as [Hc _]. apply digit_plain in Hc as (_ & -> & ->).
    exact Hv.
  - unfold pretty, pretty_Z, pretty, pretty_positive, pretty, pretty_N.
    case_decide; [done|].
    assert (Hv : digits_value 0 (list_ascii_of_string (pretty_N_go (N.pos p) ""))
                 = Some (Z.pos p))
      by (rewrite digits_value_pretty_N_go; reflexivity).
    unfold parse_int.
    change (list_ascii_of_string ("-" +:+ pretty_N_go (N.pos p) ""))
      with ("-"%char :: list_ascii_of_string (pretty_N_go (N.pos p) "")).
    remember (list_ascii_of_string (pretty_N_go (N.pos p) "")) as l eqn:Hl.
    pose proof (digits_value_digits _ _ _ Hv) as Hd.
    rewrite strip_plain.
    2:{ constructor; [reflexivity|].
        eapply Forall_impl; [exact Hd | intros c Hc; by apply digit_plain]. }
    cbn. destruct l as [|c l]; [discriminate|]. by rewrite Hv.
Qed.

Lemma split_on_plain sep s :
  Forall (fun c => Ascii.eqb c sep = false) (list_ascii_of_string s) ->
  split_on sep s = [s].
Proof.
  induction s as [|c s IH]; intros H; [reflexivity|].
  cbn in H. apply Forall_cons in H as [Hc H].
  simpl. rewrite Hc, IH by exact H. reflexivity.
Qed.

Lemma split_on_app sep s rest :
  Forall (fun c => Ascii.eqb c sep = false) (list_ascii_of_string s) ->
  split_on sep (s +:+ String sep rest) = s :: split_on sep rest.
Proof.
  induction s as [|c s IH]; intros H.
  - simpl. by rewrite Ascii.eqb_refl.
  - cbn in H. apply Forall_cons in H as [Hc H].
    simpl. rewrite Hc, IH by exact H. reflexivity.
Qed.

Lemma prefix_app s t : String.prefix s (s +:+ t) = true.
Proof.
  induction s as [|c s IH]; [by destruct t|].
  simpl. by destruct (ascii_dec c c).
Qed.

(** The decimal rendering of a natural number has no dash. *)
Lemma pretty_nonneg_plain (i : Z) :
  0 <= i ->
  Forall (fun c => Ascii.eqb c "-" = false) (list_ascii_of_string (pretty i)).
Proof.
  intros Hi. pose proof (parse_int_pretty i) as Hp.
  destruct i as [|p|p]; [by repeat constructor | | lia].
  unfold pretty, pretty_Z, pretty, pretty_positive, pretty, pretty_N in *.
  case_decide; [done|].
  assert (Hv : digits_value 0 (list_ascii_of_string (pretty_N_go (N.pos p) ""))
               = Some (Z.pos p))
    by (rewrite digits_value_pretty_N_go; reflexivity).
  eapply Forall_impl; [exact (digits_value_digits _ _ _ Hv)|].
  intros c Hc. by apply digit_plain.
Qed.

(** The part that the loop reads out of the field name of a subcategory:
    the decimal id, with or without a further dash behind it. *)
Lemma subcategory_field_part (i : Z) (suffix : string) :
  0 <= i ->
  nth_error (split_on "-" ("subcategories-" +:+ pretty i)) 1 = Some (pretty i)
  /\ nth_error (split_on "-" ("subcategories-" +:+ pretty i +:+ String "-" suffix)) 1
     = Some (pretty i).
Proof.
  intros Hi. pose proof (pretty_nonneg_plain i Hi) as Hplain. split.
  - change ("subcategories-" +:+ pretty i)
      with ("subcategories" +:+ String "-" (pretty i)).
    rewrite split_on_app by (by repeat constructor).
    by rewrite split_on_plain.
  - change ("subcategories-" +:+ pretty i +:+ String "-" suffix)
      with ("subcategories" +:+ String "-" (pretty i +:+ String "-" suffix)).
    rewrite split_on_app by (by repeat constructor).
    by rewrite split_on_app.
Qed.

Lemma checked_id_of_field_name (i : Z) (suffix v : string) :
  0 <= i ->
  checked_id ("subcategories-" +:+ pretty i) "on" = Some i
  /\ checked_id ("subcategories-" +:+ pretty i +:+ String "-" suffix) "on" = Some i
  /\ (v <> "on" -> checked_id ("subcategories-" +:+ pretty i) v = None).
Proof.
  intros Hi. destruct (subcategory_field_part i suffix Hi) as [Hs Hs'].
  unfold checked_id. rewrite Hs, Hs'. cbn [mbind option_bind].
  rewrite !prefix_app. cbn. rewrite parse_int_pretty. repeat split.
  intros Hv. apply String.eqb_neq in Hv. by rewrite Hv.
Qed.

(** X11: how the loop of [signup] reads the field that the page submits
    for a subcategory, ['subcategories-' + str(id)].  With the value ['on']
    and an id not met before, the loop looks that id up in the Category
    table: a row found is appended to the categories collected so far and
    the id is remembered, no row found ends the request with
    [ValidationError].  Whatever follows a further dash in the name is
    ignored.  With an id met before, or with any other value, the field is
    skipped. *)
Theorem collect_subcategories_reads_field_name
        (i : Z) (suffix v : string) rest subcats cats w :
  0 <= i ->
  let checked :=
    if bool_decide (i ∈ subcats) then collect_subcategories rest subcats cats w
    else match lookup_category (category_table w) i with
         | None => (Raise (ValidationError "None is not a valid choice!"), w)
         | Some c => collect_subcategories rest ({[i]} ∪ subcats) (cats ++ [c])%list w
         end in
  collect_subcategories (("subcategories-" +:+ pretty i, "on") :: rest) subcats cats w
  = checked
  /\ collect_subcategories
       (("subcategories-" +:+ pretty i +:+ String "-" suffix, "on") :: rest)
       subcats cats w
     = checked
  /\ (v <> "on" ->
      collect_subcategories (("subcategories-" +:+ pretty i, v) :: rest) subcats cats w
      = collect_subcategories rest subcats cats w).
Proof.
  intros Hi checked. destruct (subcategory_field_part i suffix Hi) as [Hs Hs'].
  rewrite !collect_subcategories_cons, Hs, Hs', !prefix_app, parse_int_pretty.
  cbn [negb]. subst checked.
  split; [|split].
  - rewrite String.eqb_refl. by destruct (bool_decide (i ∈ subcats)).
  - rewrite String.eqb_refl. by destruct (bool_decide (i ∈ subcats)).
  - intros Hv. destruct (String.eqb_spec v "on") as [->|_]; [done|reflexivity].
Qed.

Lemma collect_subcategories_reads_field_name_witness :
  collect_subcategories [("subcategories-2", "on")] ∅ [] Sample.world
  = (Ok [Sample.cat2], Sample.world)
  /\ collect_subcategories [("subcategories-2-extra", "on")] ∅ [] Sample.world
     = (Ok [Sample.cat2], Sample.world)
  /\ (("off" : string) <> "on" ->
      collect_subcategories [("subcategories-2", "off")] ∅ [] Sample.world
      = (Ok [], Sample.world)).
Proof.
  destruct (collect_subcategories_reads_field_name 2 "extra" "off" [] ∅ []
              Sample.world) as (H1 & H2 & H3); [lia|].
  split; [|split].
  - etrans; [exact H1 | vm_compute; reflexivity].
  - etrans; [exact H2 | vm_compute; reflexivity].
  - intros Hv. etrans; [exact (H3 Hv) | reflexivity].
Defined.

(** The loop completes when every subcategory field names an integer and
    every checked one resolves. *)
Lemma collect_subcategories_succeeds fields w :
  (forall k v, In (k, v) fields -> String.prefix "subcategories-" k = true ->
     exists i, nth_error (split_on "-" k) 1 ≫= parse_int = Some i
               /\ (v = "on" -> is_Some (lookup_category (category_table w) i))) ->
  forall subcats cats,
    exists cats', collect_subcategories fields subcats cats w = (Ok cats', w).
Proof.
  induction fields as [|[k v] rest IH]; intros Hok subcats cats; [by eexists|].
  assert (Hrest : forall sc cs,
             exists cats', collect_subcategories rest sc cs w = (Ok cats', w)).
  { apply IH. intros k0 v0 Hin. apply Hok. by right. }
  rewrite collect_subcategories_cons.
  destruct (String.prefix "subcategories-" k) eqn:Hp; cbn [negb]; [|apply Hrest].
  destruct (Hok k v (or_introl eq_refl) Hp) as (i & Hi & Hres).
  destruct (nth_error (split_on "-" k) 1) as [part|]; [|discriminate].
  cbn in Hi. rewrite Hi.
  destruct (String.eqb v "on") eqn:Hon; cbn [andb]; [|apply Hrest].
  destruct (bool_decide (i ∈ subcats)); cbn [negb]; [apply Hrest|].
  apply String.eqb_eq in Hon. destruct (Hres Hon) as [c ->]. apply Hrest.
Qed.

(** X12: a valid submission of ASCII texts, whose subcategory fields carry
    letters and digits only after the first dash (on these [int] and
    [parse_int] are the same function), succeeds exactly when every field
    named ['subcategories-...'] carries an integer after the first dash and
    every such field with the value ['on'] names the id of a Category
    row. *)
Theorem signup_succeeds_iff ext req w :
  su_valid req = true ->
  plain_submission w req = true ->
  (exists r w', signup ext req w = (Ok r, w'))
  <-> (forall k v, In (k, v) (su_fields req) ->
         String.prefix "subcategories-" k = true ->
         exists i, nth_error (split_on "-" k) 1 ≫= parse_int = Some i
                   /\ (v = "on" -> is_Some (lookup_category (category_table w) i))).
Proof.
  intros Hv _. split.
  - intros (r & w' & Hrun) k v Hin Hp.
    destruct (nth_error (split_on "-" k) 1 ≫= parse_int) as [i|] eqn:Hi.
    2:{ destruct (signup_malformed_field_run ext req w k v Hv Hin Hp Hi) as [e He].
        rewrite He in Hrun. discriminate. }
    exists i. split; [reflexivity|]. intros ->.
    destruct (signup_submit_tables ext req w r w' Hv Hrun) as (cats & Hc & _).
    destruct (collect_subcategories_invariant _ _ _ _ _ _ Hc) as (_ & _ & Hall);
      [reflexivity | constructor |].
    assert (Hck : checked_id k "on" = Some i)
      by (unfold checked_id; rewrite Hp; exact Hi).
    specialize (Hall k "on" i Hin Hck).
    apply in_map_iff in Hall as (c & <- & Hcin).
    destruct (collect_subcategories_origin _ _ _ _ _ _ Hc c Hcin) as [[]|[Hl _]].
    by rewrite Hl.
  - intros Hok.
    destruct (collect_subcategories_succeeds _ w Hok ∅ []) as [cats Hc].
    unfold signup. rewrite Hv.
    unfold bind at 1. unfold Vendor_first_by_email, gets.
    unfold bind at 1. rewrite Hc.
    unfold Vendor_update, Vendor_save, Vendor_create, flash. unfold_monad.
    destruct (lookup_vendor (vendor_table w) (su_email req)); [by eexists _, _|].
    destruct (vendor_signup ext _ cats); by eexists _, _.
Qed.

Lemma signup_succeeds_iff_witness :
  (exists r w',
      signup Sample.ext
             (mkSignupRequest true "b@x.com" "B Ltd"
                [("subcategories-3", "on"); ("subcategories-77", "off")] None)
             Sample.world = (Ok r, w'))
  <-> (forall k v,
         In (k, v) [("subcategories-3", "on"); ("subcategories-77", "off")] ->
         String.prefix "subcategories-" k = true ->
         exists i, nth_error (split_on "-" k) 1 ≫= parse_int = Some i
                   /\ (v = "on" -> is_Some (lookup_category
                                              (category_table Sample.world) i))).
Proof.
  apply (signup_succeeds_iff Sample.ext
           (mkSignupRequest true "b@x.com" "B Ltd"
              [("subcategories-3", "on"); ("subcategories-77", "off")] None)
           Sample.world); reflexivity.
Defined.

(** ** Signup, signup again, unsubscribe *)







(** ** Upload routing, stored files *)

(** The store after an upload of a file with a usable name. *)
Lemma upload_document_stored cfg ext f _id w :
  secure_filename ext (file_filename f) <> "" ->
  exists i w0,
    id_or_random ext _id w = (Ok i, w0)
    /\ (truthy_id _id = true -> _id = Some i)
    /\ disk w0 = disk w /\ s3 w0 = s3 w
    /\ upload_document cfg ext (VFile f) _id w
       = if UPLOAD_S3 cfg then
           let name := "opportunity-" +:+ format_ident i +:+ ".pdf" in
           (Ok (VStr name, VStr (generate_url ext (UPLOAD_DESTINATION cfg) name)),
            set_s3 (insert (UPLOAD_DESTINATION cfg, name)
                           (mkS3Object (file_stream f)
                                       (_get_aggressive_cache_headers ext name)
                                       "public-read")) w0)
         else
           let filename := secure_filename ext (file_filename f) in
           let filepath := os_path_join (UPLOAD_DESTINATION cfg) filename in
           (Ok (VStr filename, VStr filepath),
            set_disk (insert filepath (file_stream f)) w0).
Proof.
  intros Hne. apply String.eqb_neq in Hne.
  assert (Hid : exists i w0, id_or_random ext _id w = (Ok i, w0)
                 /\ (truthy_id _id = true -> _id = Some i)
                 /\ disk w0 = disk w /\ s3 w0 = s3 w).
  { unfold id_or_random. unfold_monad.
    destruct _id as [i|]; [destruct (truthy_id (Some i)) eqn:Ht|]; cbn;
      eexists _, _; repeat split; try reflexivity; intros; congruence. }
  destruct Hid as (i & w0 & Hid & Hsup & Hdisk & Hs3).
  exists i, w0. repeat split; try assumption.
  unfold upload_document, get_filename, get_stream.
  unfold bind at 1. unfold ret at 1. unfold bind at 1. rewrite Hid.
  cbn. rewrite Hne. destruct (UPLOAD_S3 cfg); unfold_monad; cbn; [|reflexivity].
  unfold set_s3. cbn. by rewrite alter_insert_eq.
Qed.

(** X14: in object-storage mode there is one object per identifier:
    uploading a second file under the same identifier returns the same key
    and replaces the stored contents, so the bucket ends up as if only the
    second file had been uploaded. *)
Theorem upload_document_s3_replaces cfg ext f1 f2 i w :
  UPLOAD_S3 cfg = true ->
  truthy_id (Some i) = true ->
  secure_filename ext (file_filename f1) <> "" ->
  secure_filename ext (file_filename f2) <> "" ->
  let name := "opportunity-" +:+ format_ident i +:+ ".pdf" in
  exists url w1 w2,
    upload_document cfg ext (VFile f1) (Some i) w = (Ok (VStr name, url), w1)
    /\ upload_document cfg ext (VFile f2) (Some i) w1 = (Ok (VStr name, url), w2)
    /\ s3 w2 = <[(UPLOAD_DESTINATION cfg, name) :=
                   mkS3Object (file_stream f2) (_get_aggressive_cache_headers ext name)
                              "public-read"]> (s3 w)
    /\ disk w2 = disk w.
Proof.
  intros Hmode Hid Hn1 Hn2 name.
  destruct (upload_document_stored cfg ext f1 (Some i) w Hn1)
    as (i1 & w0 & _ & Hi1 & Hd0 & Hs0 & Hrun1).
  specialize (Hi1 Hid). injection Hi1 as <-. rewrite Hmode in Hrun1. cbv zeta in Hrun1.
  fold name in Hrun1.
  match type of Hrun1 with _ = (_, ?x) => set (w1 := x) in * end.
  destruct (upload_document_stored cfg ext f2 (Some i) w1 Hn2)
    as (i2 & w0' & _ & Hi2 & Hd0' & Hs0' & Hrun2).
  specialize (Hi2 Hid). injection Hi2 as <-. rewrite Hmode in Hrun2. cbv zeta in Hrun2.
  fold name in Hrun2.
  eexists _, _, _. split; [exact Hrun1|].
  split; [exact Hrun2|]. cbn. rewrite Hs0', Hd0'. cbn. rewrite Hs0, Hd0.
  split; [apply insert_insert_eq | reflexivity].
Qed.

Lemma upload_document_s3_replaces_witness :
  exists url w1 w2,
    upload_document Sample.on_s3 Sample.ext (VFile (mkFile "draft.pdf" "v1"))
                    (Some (IdInt 7)) Sample.world
    = (Ok (VStr "opportunity-7.pdf", url), w1)
    /\ upload_document Sample.on_s3 Sample.ext (VFile (mkFile "final.pdf" "v2"))
                       (Some (IdInt 7)) w1
       = (Ok (VStr "opportunity-7.pdf", url), w2)
    /\ s3 w2 = <[("beacon-uploads", "opportunity-7.pdf") :=
                   mkS3Object "v2" [("Cache-Control", "max-age=31536000, public")]
                              "public-read"]> (s3 Sample.world)
    /\ disk w2 = disk Sample.world.
Proof.
  apply (upload_document_s3_replaces Sample.on_s3 Sample.ext
           (mkFile "draft.pdf" "v1") (mkFile "final.pdf" "v2") (IdInt 7) Sample.world);
    [reflexivity | reflexivity | discriminate | discriminate].
Defined.

(** X15: in local-disk mode the identifier plays no part in where the file
    goes: two uploads whose sanitized names agree are written to the same
    path, whatever identifiers they come with, and the second file
    replaces the first. *)
Theorem upload_document_disk_collides cfg ext f1 f2 id1 id2 w :
  UPLOAD_S3 cfg = false ->
  secure_filename ext (file_filename f1) <> "" ->
  secure_filename ext (file_filename f2) = secure_filename ext (file_filename f1) ->
  let filename := secure_filename ext (file_filename f1) in
  let filepath := os_path_join (UPLOAD_DESTINATION cfg) filename in
  exists w1 w2,
    upload_document cfg ext (VFile f1) id1 w = (Ok (VStr filename, VStr filepath), w1)
    /\ upload_document cfg ext (VFile f2) id2 w1 = (Ok (VStr filename, VStr filepath), w2)
    /\ disk w2 = <[filepath := file_stream f2]> (disk w)
    /\ s3 w2 = s3 w.
Proof.
  intros Hmode Hn1 Heq filename filepath.
  assert (Hn2 : secure_filename ext (file_filename f2) <> "") by (by rewrite Heq).
  destruct (upload_document_stored cfg ext f1 id1 w Hn1)
    as (i1 & w0 & _ & _ & Hd0 & Hs0 & Hrun1).
  rewrite Hmode in Hrun1. cbv zeta in Hrun1. fold filename filepath in Hrun1.
  match type of Hrun1 with _ = (_, ?x) => set (w1 := x) in * end.
  destruct (upload_document_stored cfg ext f2 id2 w1 Hn2)
    as (i2 & w0' & _ & _ & Hd0' & Hs0' & Hrun2).
  rewrite Hmode, Heq in Hrun2. cbv zeta in Hrun2. fold filename filepath in Hrun2.
  eexists _, _. split; [exact Hrun1|].
  split; [exact Hrun2|]. cbn. rewrite Hs0', Hd0'. cbn. rewrite Hs0, Hd0.
  split; [apply insert_insert_eq | reflexivity].
Qed.

Lemma upload_document_disk_collides_witness :
  exists w1 w2,
    upload_document Sample.on_disk Sample.ext (VFile (mkFile "scope.pdf" "roads"))
                    (Some (IdInt 1)) Sample.world
    = (Ok (VStr "scope.pdf", VStr "/var/uploads/scope.pdf"), w1)
    /\ upload_document Sample.on_disk Sample.ext (VFile (mkFile "scope.pdf" "bridges"))
                       (Some (IdInt 2)) w1
       = (Ok (VStr "scope.pdf", VStr "/var/uploads/scope.pdf"), w2)
    /\ disk w2 = <["/var/uploads/scope.pdf" := "bridges"]> (disk Sample.world)
    /\ s3 w2 = s3 Sample.world.
Proof.
  apply (upload_document_disk_collides Sample.on_disk Sample.ext
           (mkFile "scope.pdf" "roads") (mkFile "scope.pdf" "bridges")
           (Some (IdInt 1)) (Some (IdInt 2)) Sample.world);
    [reflexivity | discriminate | reflexivity].
Defined.

(** ** Opportunity build/update, failures and repeated calls *)

(** X16: nothing is rolled back when upload routing fails.  If the contact
    email belongs to no user and the data carries no file ([document] is
    [None] or absent), the call raises the [AttributeError] of upload
    routing after the placeholder user has been inserted and
    [contact_email] has been popped: the user table keeps the new user, the
    dictionary has lost the key, and no opportunity row is written. *)
Theorem build_opportunity_no_rollback cfg ext data opportunity w e :
  deref w data !! "contact_email" = Some e ->
  lookup_user (user_table w) e = None ->
  dict_get (deref w data) "document" = VNone ->
  exists w',
    build_opportunity cfg ext data opportunity w
    = (Raise (AttributeError "NoneType" "filename"), w')
    /\ user_table w'
       = (user_table w
          ++ [mkUser (next_id (map user_id (user_table w))) e 2
                     (dict_get (deref w data) "department")])%list
    /\ deref w' data = delete "contact_email" (deref w data)
    /\ opportunity_table w' = opportunity_table w.
Proof.
  intros He Hu Hdoc. rewrite build_opportunity_run, He. cbv zeta.
  rewrite Hu, Hdoc. unfold resolved_contact. rewrite Hu.
  eexists. split; [reflexivity|]. cbn. repeat split.
  unfold deref at 1. cbn. by rewrite lookup_insert_eq.
Qed.

Lemma build_opportunity_no_rollback_witness :
  exists w',
    build_opportunity Sample.on_disk Sample.ext 3%positive None
      (set_users (fun _ => []) Sample.world)
    = (Raise (AttributeError "NoneType" "filename"), w')
    /\ user_table w' = [mkUser 1 (VStr "staff@city.gov") 2 VNone]
    /\ deref w' 3%positive = delete "contact_email" Sample.no_file_data
    /\ opportunity_table w' = opportunity_table Sample.world.
Proof.
  apply (build_opportunity_no_rollback Sample.on_disk Sample.ext 3%positive None
           (set_users (fun _ => []) Sample.world) (VStr "staff@city.gov"));
    reflexivity.
Defined.

(** The dictionary after a call that returned. *)
Lemma build_opportunity_returns cfg ext data opportunity w o w' :
  build_opportunity cfg ext data opportunity w = (Ok o, w') ->
  exists e filename filepath,
    deref w data !! "contact_email" = Some e
    /\ deref w' data
       = merged (deref w data) (user_id (resolved_contact w data e)) filename filepath.
Proof.
  rewrite build_opportunity_run.
  destruct (deref w data !! "contact_email") as [e|] eqn:He; [|discriminate].
  cbv zeta.
  destruct (upload_document _ _ _ _ _) as [[[filename filepath]|x] w2]; [|discriminate].
  cbn [fst snd]. intros Hrun. exists e, filename, filepath. split; [reflexivity|].
  destruct opportunity; injection Hrun as _ <-;
    unfold deref at 1; cbn; by rewrite lookup_insert_eq.
Qed.

(** X17: the dictionary handed to [build_opportunity] can be used once.
    After a call that returned, a second call on the same dictionary, for
    any opportunity, raises [KeyError('contact_email')] and changes
    nothing. *)
Theorem build_opportunity_second_call_fails cfg ext data opportunity opportunity' w o w' :
  build_opportunity cfg ext data opportunity w = (Ok o, w') ->
  build_opportunity cfg ext data opportunity' w' = (Raise (KeyError "contact_email"), w').
Proof.
  intros Hrun.
  destruct (build_opportunity_returns _ _ _ _ _ _ _ Hrun) as (e & fn & fp & _ & Hd).
  rewrite build_opportunity_run, Hd. unfold merged. by simplify_map_eq.
Qed.

Lemma build_opportunity_second_call_fails_witness :
  exists o w',
    build_opportunity Sample.on_disk Sample.ext 1%positive None Sample.world = (Ok o, w')
    /\ build_opportunity Sample.on_disk Sample.ext 1%positive (Some o) w'
       = (Raise (KeyError "contact_email"), w').
Proof.
  destruct (build_opportunity Sample.on_disk Sample.ext 1%positive None Sample.world)
    as [[o|x] w'] eqn:Hrun; [|vm_compute in Hrun; discriminate].
  exists o, w'. split; [reflexivity|].
  exact (build_opportunity_second_call_fails _ _ _ _ _ _ _ _ Hrun).
Defined.

(** ** Administration: new and edit *)

Lemma upload_document_frame_flashes cfg ext document _id w :
  flashes (upload_document cfg ext document _id w).2 = flashes w.
Proof.
  unfold upload_document, id_or_random, get_filename, get_stream.
  destruct document; unfold_monad; cbn; auto.
  destruct _id as [i|]; [destruct (truthy_id (Some i))|]; cbn;
    destruct (String.eqb _ ""); cbn; auto;
    destruct (UPLOAD_S3 cfg); cbn; auto.
Qed.

(** A new dictionary is stored under a reference that was not in use. *)
Lemma alloc_dict_fresh d w :
  let l := fresh (dom (heap w)) in
  alloc_dict d w = (Ok l, set_heap (insert l d) w)
  /\ heap w !! l = None
  /\ deref (set_heap (insert l d) w) l = d.
Proof.
  intros l. repeat split.
  - apply not_elem_of_dom, is_fresh.
  - unfold deref. cbn. by rewrite lookup_insert_eq.
Qed.

(** [new], run on a valid form that names a contact and carries a file. *)
Lemma new_run cfg ext req w e f :
  op_valid req = true ->
  op_data req !! "contact_email" = Some e ->
  op_data req !! "document" = Some (VFile f) ->
  let l := fresh (dom (heap w)) in
  let wa := set_heap (insert l (op_data req)) w in
  let contact := resolved_contact wa l e in
  let w1 := match lookup_user (user_table w) e with
            | Some _ => set_heap (insert l (delete "contact_email" (op_data req))) wa
            | None => set_users (fun us => (us ++ [contact])%list)
                        (set_heap (insert l (delete "contact_email" (op_data req))) wa)
            end in
  exists filename filepath w2,
    upload_document cfg ext (VFile f) None w1 = (Ok (filename, filepath), w2)
    /\ let d' := merged (op_data req) (user_id contact) filename filepath in
       let o := mkOpportunity (next_id (map opp_id (opportunity_table w))) d' in
       new cfg ext req w
       = (Ok (RedirectEdit (opp_id o)),
          set_flashes (fun fl => (fl ++ [("Opportunity Successfully Created!",
                                          "alert-success")])%list)
            (set_opportunities (fun os => (os ++ [o])%list)
               (set_heap (insert l d') w2))).
Proof.
  intros Hv He Hdoc l wa contact w1.
  destruct (alloc_dict_fresh (op_data req) w) as (Halloc & _ & Hd).
  fold l in Halloc, Hd. fold wa in Halloc, Hd.
  destruct (upload_document_file_returns cfg ext f None w1)
    as ([filename filepath] & w2 & Hup).
  exists filename, filepath, w2. split; [exact Hup|]. cbv zeta.
  unfold new. rewrite Hv. unfold bind at 1. rewrite Halloc.
  unfold bind at 1. rewrite build_opportunity_run, Hd, He. cbv zeta.
  assert (Hdg : dict_get (op_data req) "document" = VFile f)
    by (unfold dict_get; by rewrite Hdoc).
  rewrite Hdg. change (upload_id None) with (@None ident).
  change (user_table wa) with (user_table w).
  change (opportunity_table wa) with (opportunity_table w).
  fold contact. fold w1. rewrite Hup. cbn [fst snd].
  unfold flash. unfold_monad. reflexivity.
Qed.

(** X18: a valid submission of the new-opportunity form that names a
    contact and carries a file appends exactly one row and redirects to the
    edit page of that row, with one flash message.  The row is stamped
    [created_by = 1]; no dictionary that existed before is touched; and in
    object-storage mode the document is stored under a key made from a
    drawn random identifier, the row's own id being unknown at upload
    time. *)
Theorem new_appends_one_row cfg ext req w e f :
  op_valid req = true ->
  op_data req !! "contact_email" = Some e ->
  op_data req !! "document" = Some (VFile f) ->
  exists o w',
    new cfg ext req w = (Ok (RedirectEdit (opp_id o)), w')
    /\ opportunity_table w' = (opportunity_table w ++ [o])%list
    /\ flashes w'
       = (flashes w ++ [("Opportunity Successfully Created!", "alert-success")])%list
    /\ opp_attrs o !! "created_by" = Some (VInt 1)
    /\ opp_attrs o !! "contact_email" = None
    /\ (forall l, is_Some (heap w !! l) -> heap w' !! l = heap w !! l)
    /\ (UPLOAD_S3 cfg = true -> secure_filename ext (file_filename f) <> "" ->
        opp_attrs o !! "document"
        = Some (VStr ("opportunity-" +:+ random_id ext 6 (rng w) +:+ ".pdf"))).
Proof.
  intros Hv He Hdoc.
  destruct (new_run cfg ext req w e f Hv He Hdoc) as (filename & filepath & w2 & Hup & Hrun).
  cbv zeta in Hrun, Hup.
  set (l := fresh (dom (heap w))) in *.
  set (wa := set_heap (insert l (op_data req)) w) in *.
  set (w1 := match lookup_user (user_table w) e with Some _ => _ | None => _ end) in *.
  pose proof (upload_document_frame cfg ext (VFile f) None w1) as Hframe.
  pose proof (upload_document_frame_flashes cfg ext (VFile f) None w1) as Hfl.
  rewrite Hup in Hframe, Hfl. cbn in Hframe, Hfl. destruct Hframe as (Hh & _ & Ho).
  assert (Ho1 : opportunity_table w1 = opportunity_table w)
    by (unfold w1; destruct (lookup_user _ _); reflexivity).
  assert (Hf1 : flashes w1 = flashes w)
    by (unfold w1; destruct (lookup_user _ _); reflexivity).
  assert (Hr1 : rng w1 = rng w)
    by (unfold w1; destruct (lookup_user _ _); reflexivity).
  assert (Hh1 : heap w1 = <[l := delete "contact_email" (op_data req)]>
                            (<[l := op_data req]> (heap w)))
    by (unfold w1; destruct (lookup_user _ _); reflexivity).
  eexists _, _. split; [exact Hrun|]. cbn.
  rewrite Ho, Ho1, Hfl, Hf1. repeat split.
  - unfold merged. by simplify_map_eq.
  - unfold merged. by simplify_map_eq.
  - intros l' [d Hl']. rewrite Hh, Hh1.
    assert (l' <> l).
    { intros ->. pose proof (is_fresh (dom (heap w))) as Hfresh.
      apply Hfresh. apply elem_of_dom. eauto. }
    by rewrite !lookup_insert_ne.
  - intros Hmode Hne. apply String.eqb_neq in Hne.
    assert (Hfn : filename
                  = VStr ("opportunity-" +:+ random_id ext 6 (rng w) +:+ ".pdf")).
    { unfold upload_document, id_or_random, get_filename, get_stream in Hup.
      unfold_monad. cbn in Hup. rewrite Hne, Hmode, Hr1 in Hup. cbn in Hup.
      by injection Hup as <- _ _. }
    unfold merged. rewrite Hfn. by simplify_map_eq.
Qed.

Lemma new_appends_one_row_witness :
  exists o w',
    new Sample.on_s3 Sample.ext (mkOpportunityRequest true Sample.form_data) Sample.world
    = (Ok (RedirectEdit (opp_id o)), w')
    /\ opportunity_table w' = (opportunity_table Sample.world ++ [o])%list
    /\ flashes w' = [("Opportunity Successfully Created!", "alert-success")]
    /\ opp_attrs o !! "document" = Some (VStr "opportunity-q7x2mk.pdf").
Proof.
  destruct (new_appends_one_row Sample.on_s3 Sample.ext
              (mkOpportunityRequest true Sample.form_data) Sample.world
              (VStr "new@city.gov") Sample.report eq_refl eq_refl eq_refl)
    as (o & w' & Hrun & Ht & Hfl & _ & _ & _ & Hkey).
  exists o, w'. repeat split; [exact Hrun | exact Ht | exact Hfl |].
  apply Hkey; [reflexivity | discriminate].
Defined.

Lemma lookup_opportunity_id tbl i o :
  lookup_opportunity tbl i = Some o -> opp_id o = i /\ In o tbl.
Proof.
  unfold lookup_opportunity. intros H. apply find_some in H as [Hin H].
  by apply Z.eqb_eq in H.
Qed.

Lemma lookup_opportunity_replace tbl i o o' :
  lookup_opportunity tbl i = Some o -> opp_id o' = i ->
  lookup_opportunity (replace_opportunity o' tbl) i = Some o'.
Proof.
  unfold lookup_opportunity, replace_opportunity. intros Hf Hid.
  subst i. induction tbl as [|r tbl IH]; [discriminate|].
  cbn in *. destruct (Z.eqb (opp_id r) (opp_id o')) eqn:Hr.
  - by rewrite Z.eqb_refl.
  - rewrite Hr. auto.
Qed.

Lemma lookup_user_by_id_email tbl n u :
  lookup_user_by_id tbl n = Some u -> is_Some (lookup_user tbl (user_email u)).
Proof.
  unfold lookup_user_by_id, lookup_user. intros H. apply find_some in H as [Hin _].
  destruct (List.find _ tbl) eqn:Hf; [eauto|].
  eapply find_none in Hf; [|exact Hin]. cbn in Hf.
  by rewrite bool_decide_eq_true_2 in Hf.
Qed.

(** [edit], case by case. *)
Lemma edit_unfold cfg ext i req w :
  edit cfg ext i req w
  = match lookup_opportunity (opportunity_table w) i with
    | None => (Raise NotFound, w)
    | Some o =>
        match match opp_attrs o !! "contact_id" with
              | Some (VInt n) => lookup_user_by_id (user_table w) n
              | _ => None
              end with
        | None => (Raise (AttributeError "NoneType" "email"), w)
        | Some u =>
            if op_valid req then
              let l := fresh (dom (heap w)) in
              let wa := set_heap (insert l (<["contact_email" := user_email u]>
                                              (op_data req))) w in
              match build_opportunity cfg ext l (Some o) wa with
              | (Ok _, w') =>
                  (Ok (RedirectEdit (opp_id o)),
                   set_flashes (fun fl => (fl ++ [("Opportunity Successfully Updated!",
                                                   "alert-success")])%list) w')
              | (Raise x, w') => (Raise x, w')
              end
            else (Ok (RenderOpportunity (Some o)), w)
        end
    end.
Proof.
  unfold edit, Opportunity_get, Opportunity_contact, get_email, alloc_dict, flash.
  unfold_monad.
  destruct (lookup_opportunity (opportunity_table w) i) as [o|]; [|reflexivity].
  destruct (match opp_attrs o !! "contact_id" with
            | Some (VInt n) => lookup_user_by_id (user_table w) n
            | _ => None
            end) as [u|]; [|reflexivity].
  destruct (op_valid req); [|reflexivity]. cbv zeta.
  destruct (build_opportunity _ _ _ _ _) as [[o'|x] w']; reflexivity.
Qed.

(** X19: the contact email typed into the edit form is ignored.  [edit]
    overwrites the field with the email of the opportunity's current
    contact before the form is read, so two submissions that differ only
    in [contact_email] have the same outcome and leave the same store. *)
Theorem edit_ignores_submitted_contact_email cfg ext i valid d x w :
  edit cfg ext i (mkOpportunityRequest valid (<["contact_email" := x]> d)) w
  = edit cfg ext i (mkOpportunityRequest valid d) w.
Proof.
  rewrite !edit_unfold. cbn [op_valid op_data].
  destruct (lookup_opportunity (opportunity_table w) i) as [o|]; [|reflexivity].
  destruct (match opp_attrs o !! "contact_id" with
            | Some (VInt n) => lookup_user_by_id (user_table w) n
            | _ => None
            end) as [u|]; [|reflexivity].
  by rewrite insert_insert_eq.
Qed.

(** X20: [edit] never creates or changes a user.  The contact email it
    passes on is the email of an existing user, so the look-up by email
    always succeeds and no placeholder is inserted; on every path, raising
    or returning, the user table is left as it was. *)
Theorem edit_keeps_users cfg ext i req w :
  user_table (edit cfg ext i req w).2 = user_table w.
Proof.
  rewrite edit_unfold.
  destruct (lookup_opportunity (opportunity_table w) i) as [o|]; [|reflexivity].
  destruct (match opp_attrs o !! "contact_id" with
            | Some (VInt n) => lookup_user_by_id (user_table w) n
            | _ => None
            end) as [u|] eqn:Hc; [|reflexivity].
  assert (Hu : is_Some (lookup_user (user_table w) (user_email u))).
  { destruct (opp_attrs o !! "contact_id") as [[]|]; try discriminate.
    by eapply lookup_user_by_id_email. }
  destruct (op_valid req); [|reflexivity]. cbv zeta.
  destruct (alloc_dict_fresh (<["contact_email" := user_email u]> (op_data req)) w)
    as (_ & _ & Hd).
  set (l := fresh (dom (heap w))) in *.
  set (wa := set_heap _ w) in *.
  rewrite build_opportunity_run, Hd.
  rewrite lookup_insert_eq. cbv zeta.
  change (user_table wa) with (user_table w).
  destruct Hu as [u' Hu']. rewrite Hu'.
  match goal with
  | |- context [upload_document cfg ext ?doc ?id ?w1] =>
      pose proof (upload_document_frame cfg ext doc id w1) as Hframe;
      destruct (upload_document cfg ext doc id w1) as [[res|x] w2]
  end; cbn in Hframe; destruct Hframe as (_ & Hut & _); exact Hut.
Qed.

Lemma written_opportunity_table f g h w :
  opportunity_table (set_flashes f (set_opportunities g (set_heap h w)))
  = g (opportunity_table w).
Proof. reflexivity. Qed.

Lemma written_flashes f g h w :
  flashes (set_flashes f (set_opportunities g (set_heap h w))) = f (flashes w).
Proof. reflexivity. Qed.

(** X21: a valid edit with a file updates the row in place.  The request
    is redirected to the same id, the table keeps its length and the row
    found under the id afterwards is the updated one; its contact is the
    first user that has the current contact's email; columns that the form
    does not carry keep their values; and in object-storage mode the
    document is stored under ['opportunity-' + str(id) + '.pdf']. *)
Theorem edit_updates_in_place cfg ext i req w o n u f :
  lookup_opportunity (opportunity_table w) i = Some o ->
  opp_attrs o !! "contact_id" = Some (VInt n) ->
  lookup_user_by_id (user_table w) n = Some u ->
  op_valid req = true ->
  op_data req !! "document" = Some (VFile f) ->
  exists o' w',
    edit cfg ext i req w = (Ok (RedirectEdit i), w')
    /\ lookup_opportunity (opportunity_table w') i = Some o'
    /\ length (opportunity_table w') = length (opportunity_table w)
    /\ flashes w'
       = (flashes w ++ [("Opportunity Successfully Updated!", "alert-success")])%list
    /\ (forall u', lookup_user (user_table w) (user_email u) = Some u' ->
                   opp_attrs o' !! "contact_id" = Some (VInt (user_id u')))
    /\ (forall k,
          ~ In k ["contact_email"; "contact_id"; "created_by"; "document";
                  "document_href"] ->
          op_data req !! k = None -> opp_attrs o' !! k = opp_attrs o !! k)
    /\ (UPLOAD_S3 cfg = true -> secure_filename ext (file_filename f) <> "" ->
        i <> 0 ->
        opp_attrs o' !! "document"
        = Some (VStr ("opportunity-" +:+ pretty i +:+ ".pdf"))).
Proof.
  intros Hf Hcid Hu Hv Hdoc.
  destruct (lookup_opportunity_id _ _ _ Hf) as [Hid _].
  destruct (lookup_user_by_id_email _ _ _ Hu) as [u0 Hu0].
  rewrite edit_unfold, Hf, Hcid, Hu, Hv. cbv zeta.
  destruct (alloc_dict_fresh (<["contact_email" := user_email u]> (op_data req)) w)
    as (_ & _ & Hd).
  set (l := fresh (dom (heap w))) in *.
  set (wa := set_heap _ w) in *.
  rewrite build_opportunity_run, Hd, lookup_insert_eq. cbv zeta.
  change (user_table wa) with (user_table w).
  change (opportunity_table wa) with (opportunity_table w).
  rewrite Hu0.
  assert (Hdg : dict_get (<["contact_email" := user_email u]> (op_data req)) "document"
                = VFile f)
    by (unfold dict_get; by rewrite lookup_insert_ne, Hdoc).
  rewrite Hdg. unfold resolved_contact. change (user_table wa) with (user_table w).
  rewrite Hu0.
  set (w0 := set_heap _ wa).
  pose proof (upload_document_frame cfg ext (VFile f) (upload_id (Some o)) w0) as Hframe.
  pose proof (upload_document_frame_flashes cfg ext (VFile f) (upload_id (Some o)) w0)
    as Hfl.
  assert (Hkey : UPLOAD_S3 cfg = true -> secure_filename ext (file_filename f) <> "" ->
                 i <> 0 ->
                 exists fp w2, upload_document cfg ext (VFile f) (upload_id (Some o)) w0
                               = (Ok (VStr ("opportunity-" +:+ pretty i +:+ ".pdf"), fp),
                                  w2)).
  { intros Hmode Hne Hi0.
    destruct (upload_document_stored cfg ext f (upload_id (Some o)) w0 Hne)
      as (j & w0' & _ & Hj & _ & _ & Hrun).
    assert (Ht : truthy_id (upload_id (Some o)) = true).
    { cbn. rewrite Hid. apply negb_true_iff, Z.eqb_neq. exact Hi0. }
    specialize (Hj Ht). cbn in Hj. injection Hj as <-.
    rewrite Hmode in Hrun. cbv zeta in Hrun. cbn [format_ident] in Hrun.
    rewrite Hid in Hrun. eauto. }
  destruct (upload_document_file_returns cfg ext f (upload_id (Some o)) w0)
    as ([filename filepath] & w2 & Hup).
  rewrite Hup in *. cbn in Hframe, Hfl. destruct Hframe as (_ & _ & Ho).
  cbn [fst snd].
  eexists _, _. split; [by rewrite Hid|].
  rewrite !written_opportunity_table, !written_flashes.
  rewrite Ho, Hfl. change (opportunity_table w0) with (opportunity_table w).
  change (flashes w0) with (flashes w).
  split; [by apply (lookup_opportunity_replace _ _ o)|].
  split; [unfold replace_opportunity; by rewrite length_map|].
  split; [reflexivity|]. split; [|split].
  - intros u' [= <-].
    apply lookup_union_Some_l. unfold merged. by simplify_map_eq.
  - intros k Hk Hnone. cbn in Hk.
    apply lookup_union_r. unfold merged.
    rewrite !lookup_insert_ne, lookup_delete_ne, lookup_insert_ne, Hnone;
      [reflexivity | | | | | |]; intros <-; apply Hk; auto 6.
  - intros Hmode Hne Hi0. destruct (Hkey Hmode Hne Hi0) as (fp & w2' & Hrun).
    injection Hrun as -> _ _.
    apply lookup_union_Some_l. unfold merged. by simplify_map_eq.
Qed.

Lemma edit_updates_in_place_witness :
  exists o' w',
    edit Sample.on_s3 Sample.ext 2 (mkOpportunityRequest true AdminSample.edit_form)
         AdminSample.world
    = (Ok (RedirectEdit 2), w')
    /\ lookup_opportunity (opportunity_table w') 2 = Some o'
    /\ length (opportunity_table w') = 3%nat
    /\ opp_attrs o' !! "contact_id" = Some (VInt 1)
    /\ opp_attrs o' !! "planned_deadline" = Some (VDate 40)
    /\ opp_attrs o' !! "document" = Some (VStr "opportunity-2.pdf").
Proof.
  edestruct (edit_updates_in_place Sample.on_s3 Sample.ext 2
               (mkOpportunityRequest true AdminSample.edit_form) AdminSample.world
               (AdminSample.with_contact 1 (Sample.opp 2 true 25 40))
               1 Sample.staff Sample.report)
    as (o' & w' & Hrun & Hl & Hlen & _ & Hc & Hk & Hkey);
    [vm_compute; reflexivity ..|].
  exists o', w'. split; [exact Hrun|]. split; [exact Hl|]. split; [exact Hlen|].
  split; [apply (Hc Sample.staff); reflexivity|]. split.
  - rewrite Hk; [vm_compute; reflexivity | | vm_compute; reflexivity].
    cbn. intros [H|[H|[H|[H|[H|[]]]]]]; discriminate.
  - apply Hkey; [reflexivity | discriminate | lia].
Defined.

(** ** The signup page *)

Lemma dd_append_twice k1 k2 p (subs : gmap string (list (Z * string))) k :
  dd_append k2 p (dd_append k1 p subs) !! k
  = match ((if String.eqb k k1 then [p] else [])
             ++ (if String.eqb k2 k then [p] else []))%list with
    | [] => subs !! k
    | l => Some (default [] (subs !! k) ++ l)%list
    end.
Proof.
  unfold dd_append.
  destruct (String.eqb_spec k k1) as [H1|H1];
    destruct (String.eqb_spec k2 k) as [H2|H2]; subst.
  - rewrite !lookup_insert_eq. cbn. by rewrite <- app_assoc.
  - rewrite (lookup_insert_ne _ k2 k1) by done. by rewrite !lookup_insert_eq.
  - rewrite lookup_insert_eq. by rewrite (lookup_insert_ne _ k1 k) by done.
  - by rewrite !lookup_insert_ne by done.
Qed.

Lemma category_listing_spec all_categories :
  forall cats subs,
    (category_listing all_categories cats subs).1
    = list_to_set (map category all_categories) ∪ cats
    /\ forall k,
         (category_listing all_categories cats subs).2 !! k
         = match listed_under k all_categories with
           | [] => subs !! k
           | l => Some (default [] (subs !! k) ++ l)%list
           end.
Proof.
  induction all_categories as [|c rest IH]; intros cats subs.
  { split; [cbn; by rewrite union_empty_l_L | reflexivity]. }
  cbn [category_listing].
  destruct (IH ({[category c]} ∪ cats)
               (dd_append (category c) (cat_id c, subcategory c)
                  (dd_append "Select All" (cat_id c, subcategory c) subs)))
    as [IH1 IH2].
  split.
  - rewrite IH1. cbn [map list_to_set].
    rewrite (assoc_L (∪)). f_equal. apply (comm_L (∪)).
  - intros k. rewrite IH2, dd_append_twice. unfold listed_under. cbn [flat_map].
    fold (listed_under k rest).
    destruct ((if String.eqb k "Select All" then [(cat_id c, subcategory c)] else [])
                ++ (if String.eqb (category c) k then [(cat_id c, subcategory c)]
                    else []))%list as [|x l] eqn:Hhead.
    + reflexivity.
    + cbn. destruct (listed_under k rest); [by rewrite app_nil_r|].
      cbn. by rewrite <- app_assoc.
Qed.

Lemma py_remove_None x l : py_remove x l = None <-> ~ In x l.
Proof.
  induction l as [|y l IH]; cbn; [tauto|].
  destruct (String.eqb_spec y x) as [->|Hne].
  - split; [discriminate | intros H; exfalso; auto].
  - destruct (py_remove x l); cbn.
    + split; [discriminate|]. intros H. destruct IH as [_ IH].
      discriminate IH. intros Hin. apply H. by right.
    + split; [|done]. intros _ [Hyx|Hin]; [done|]. by apply IH in Hin.
Qed.

Lemma py_remove_Some x l l' :
  NoDup l -> py_remove x l = Some l' ->
  NoDup l' /\ forall y, In y l' <-> In y l /\ y <> x.
Proof.
  revert l'. induction l as [|y l IH]; intros l' Hnd H; [discriminate|].
  apply NoDup_cons in Hnd as [Hy Hnd]. cbn in H.
  destruct (String.eqb_spec y x) as [->|Hne].
  - injection H as <-. split; [exact Hnd|]. intros z. cbn. split.
    + intros Hz. split; [by right|]. intros ->. apply Hy. by apply list_elem_of_In.
    + intros [[->|Hz] Hzx]; [done | exact Hz].
  - destruct (py_remove x l) as [r|] eqn:Hr; [|discriminate]. cbn in H.
    injection H as <-. destruct (IH r Hnd eq_refl) as [IHnd IHin]. split.
    + apply NoDup_cons. split; [|exact IHnd].
      intros Hyr. apply list_elem_of_In, IHin in Hyr as [Hyl _].
      apply Hy. by apply list_elem_of_In.
    + intros z. cbn. rewrite IHin. split.
      * intros [->|[Hz Hzx]]; [split; [by left | by intros ->] | split; [by right | done]].
      * intros [[->|Hz] Hzx]; [by left | right; by split].
Qed.

Lemma sorted_insert_perm x l : Permutation (sorted_insert x l) (x :: l).
Proof.
  induction l as [|y l IH]; [reflexivity|]. cbn.
  destruct (String.leb x y); [reflexivity|].
  rewrite IH. apply perm_swap.
Qed.

Lemma py_sorted_perm l : Permutation (py_sorted l) l.
Proof.
  induction l as [|x l IH]; [reflexivity|]. cbn.
  rewrite sorted_insert_perm. by constructor.
Qed.

Lemma sorted_insert_sorted x l :
  is_sorted l = true -> is_sorted (sorted_insert x l) = true.
Proof.
  induction l as [|y l IH]; intros Hs; [reflexivity|].
  cbn [sorted_insert]. destruct (String.leb x y) eqn:Hxy.
  - change (String.leb x y && is_sorted (y :: l) = true). by rewrite Hxy, Hs.
  - assert (Hyx : String.leb y x = true)
      by (destruct (String.leb_total x y) as [H|H]; [congruence | exact H]).
    destruct l as [|z l].
    + cbn. by rewrite Hyx.
    + change (String.leb y z && is_sorted (z :: l) = true) in Hs.
      apply andb_true_iff in Hs as [Hyz Hs]. specialize (IH Hs).
      cbn [sorted_insert] in *. destruct (String.leb x z).
      * change (String.leb y x && is_sorted (x :: z :: l) = true).
        by rewrite Hyx, IH.
      * change (String.leb y z && is_sorted (z :: sorted_insert x l) = true).
        by rewrite Hyz, IH.
Qed.

Lemma py_sorted_sorted l : is_sorted (py_sorted l) = true.
Proof.
  induction l as [|x l IH]; [reflexivity|]. cbn. by apply sorted_insert_sorted.
Qed.

Lemma listed_under_label k tbl :
  k <> "Select All" ->
  listed_under k tbl
  = map (fun c => (cat_id c, subcategory c))
        (List.filter (fun c => String.eqb (category c) k) tbl).
Proof.
  intros Hk. apply String.eqb_neq in Hk.
  induction tbl as [|c tbl IH]; [reflexivity|].
  unfold listed_under in *. cbn [flat_map List.filter]. rewrite IH, Hk.
  destruct (String.eqb (category c) k); reflexivity.
Qed.

Lemma listed_under_all tbl :
  (forall c, In c tbl -> category c <> "Select All") ->
  listed_under "Select All" tbl = map (fun c => (cat_id c, subcategory c)) tbl.
Proof.
  induction tbl as [|c tbl IH]; intros H; [reflexivity|].
  unfold listed_under in *. cbn [flat_map map].
  rewrite IH by (intros c' Hc'; apply H; by right).
  destruct (String.eqb_spec (category c) "Select All") as [He|_]; [|reflexivity].
  exfalso. by apply (H c); [left|].
Qed.

Lemma listed_under_nonempty k tbl :
  listed_under k tbl <> []
  <-> (k = "Select All" /\ tbl <> []) \/ exists c, In c tbl /\ category c = k.
Proof.
  induction tbl as [|c tbl IH].
  { cbn. split; [done | intros [[_ H]|(c & [] & _)]; done]. }
  unfold listed_under in *. cbn [flat_map].
  destruct (String.eqb_spec k "Select All") as [Hk|Hk];
    destruct (String.eqb_spec (category c) k) as [Hc|Hc]; cbn.
  - split; [|done]. intros _. left. by split.
  - split; [|done]. intros _. left. by split.
  - split; [|done]. intros _. right. exists c. split; [by left | done].
  - rewrite IH. split.
    + intros [[H _]|(c' & Hin & Hc')]; [done|]. right. exists c'. split; [by right | done].
    + intros [[H _]|(c' & [->|Hin] & Hc')]; [done | done |]. right. by exists c'.
Qed.

(** X22: with no Category row the signup page cannot be rendered: the
    dictionary of subcategories then has no key ['Select All'], and
    removing that key from the list of keys raises [ValueError].  The email
    remembered in the session has already been consumed at that point. *)
Theorem signup_page_needs_a_category ext req w :
  su_valid req = false ->
  su_page_email req = None ->
  category_table w = [] ->
  signup_page ext req w
  = (Raise (ValueError "list.remove(x): x not in list"),
     set_session_email (fun _ => None) w).
Proof.
  intros Hv Hp Ht. unfold signup_page, signup, signup_context.
  rewrite Hv, Hp. unfold_monad. cbn. rewrite Ht. reflexivity.
Qed.

Lemma signup_page_needs_a_category_witness :
  signup_page Sample.ext (mkSignupRequest false "" "" [] None)
              (mkWorld [] [] [] [] ∅ ∅ ∅ 0 [] (Some "a@x.com"))
  = (Raise (ValueError "list.remove(x): x not in list"),
     mkWorld [] [] [] [] ∅ ∅ ∅ 0 [] None).
Proof.
  apply (signup_page_needs_a_category Sample.ext (mkSignupRequest false "" "" [] None)
           (mkWorld [] [] [] [] ∅ ∅ ∅ 0 [] (Some "a@x.com"))); reflexivity.
Defined.

(** X23: what the signup page lists when there is at least one Category
    row.  The list of categories shown is sorted, has no duplicates, holds
    exactly the labels of the table other than ['Select All'], and ends
    with ['Select All'].  The dictionary of subcategories maps each label
    to the [(id, subcategory)] pairs of its rows in table order, and, when
    no row is itself labelled ['Select All'], maps ['Select All'] to the
    pairs of all rows. *)
Theorem signup_context_listing w :
  category_table w <> [] ->
  exists ctx shown,
    signup_context w = (Ok ctx, w)
    /\ ctx_categories ctx = (shown ++ ["Select All"])%list
    /\ is_sorted shown = true
    /\ NoDup shown
    /\ (forall k, In k shown
                  <-> k <> "Select All"
                      /\ exists c, In c (category_table w) /\ category c = k)
    /\ (forall k, k <> "Select All" ->
          ctx_subcategories ctx !! k
          = match List.filter (fun c => String.eqb (category c) k) (category_table w) with
            | [] => None
            | rows => Some (map (fun c => (cat_id c, subcategory c)) rows)
            end)
    /\ ((forall c, In c (category_table w) -> category c <> "Select All") ->
        ctx_subcategories ctx !! "Select All"
        = Some (map (fun c => (cat_id c, subcategory c)) (category_table w))).
Proof.
  intros Hne. unfold signup_context. unfold bind, gets.
  set (tbl := category_table w) in *.
  destruct (category_listing_spec tbl ∅ ∅) as [_ Hlook].
  set (subs := (category_listing tbl ∅ ∅).2) in *.
  assert (Hlook' : forall k, subs !! k
                             = match listed_under k tbl with [] => None | l => Some l end).
  { intros k. rewrite Hlook, lookup_empty. by destruct (listed_under k tbl). }
  assert (Hdom : forall k, In k (elements (dom subs)) <-> listed_under k tbl <> []).
  { intros k. rewrite <- list_elem_of_In, elem_of_elements, elem_of_dom, Hlook'.
    destruct (listed_under k tbl) as [|x l].
    - split; [intros [? ?]; done | done].
    - split; [done | eauto]. }
  assert (Hsa : In "Select All" (elements (dom subs))).
  { apply Hdom, listed_under_nonempty. left. by split. }
  destruct (py_remove "Select All" (elements (dom subs))) as [display|] eqn:Hrm.
  2:{ apply py_remove_None in Hrm. done. }
  destruct (py_remove_Some _ _ _ (NoDup_elements _) Hrm) as [Hnd Hin].
  eexists _, (py_sorted display). split; [reflexivity|]. cbn.
  split; [reflexivity|]. split; [apply py_sorted_sorted|].
  split; [by rewrite py_sorted_perm|]. split; [|split].
  - intros k. rewrite <- list_elem_of_In, py_sorted_perm, list_elem_of_In.
    rewrite Hin, Hdom, listed_under_nonempty. split.
    + intros [[[Hk _]|Hex] Hk']; [done | by split].
    + intros [Hk Hex]. split; [by right | done].
  - intros k Hk. rewrite Hlook', listed_under_label by done.
    by destruct (List.filter _ tbl).
  - intros Hno. rewrite Hlook', listed_under_all by done.
    destruct tbl; [done | reflexivity].
Qed.

Lemma signup_context_listing_witness :
  exists ctx shown,
    signup_context Sample.world = (Ok ctx, Sample.world)
    /\ ctx_categories ctx = (shown ++ ["Select All"])%list
    /\ is_sorted shown = true
    /\ (In "Office" shown /\ In "Construction" shown)
    /\ ctx_subcategories ctx !! "Construction" = Some [(1, "Paving"); (2, "Roofing")]
    /\ ctx_subcategories ctx !! "Select All"
       = Some [(1, "Paving"); (2, "Roofing"); (3, "Paper")].
Proof.
  destruct (signup_context_listing Sample.world) as
    (ctx & shown & Hrun & Hc & Hs & _ & Hin & Hsub & Hall); [discriminate|].
  exists ctx, shown. split; [exact Hrun|]. split; [exact Hc|]. split; [exact Hs|].
  split; [split|split].
  - apply Hin. split; [discriminate|]. exists Sample.cat3. split; [cbn; auto | reflexivity].
  - apply Hin. split; [discriminate|]. exists Sample.cat1. split; [cbn; auto | reflexivity].
  - rewrite Hsub by discriminate. reflexivity.
  - rewrite Hall; [reflexivity|].
    intros c Hcin. cbn in Hcin. destruct Hcin as [<-|[<-|[<-|[]]]]; discriminate.
Defined.

(** The page listed for the sample table. *)
Lemma signup_context_sample_run :
  exists ctx,
    signup_context Sample.world = (Ok ctx, Sample.world)
    /\ ctx_categories ctx = ["Construction"; "Office"; "Select All"]
    /\ form_categories_choices ctx
       = [(None, "---"); (Some "Construction", "Construction");
          (Some "Office", "Office"); (Some "Select All", "Select All")].
Proof. eexists. split; [vm_compute; reflexivity|]. split; reflexivity. Qed.
